(** * viewchart: pivot levels and chart-data assembly of [streamlit_app.py]

    A shallow embedding of the two functions of [streamlit_app.py] that
    carry the domain logic, [calculate_pivot_points] and
    [load_chart_data], together with the page loop that calls the
    latter, and the properties the specification states about them.

    Number model.  The program computes on binary64 values (pandas
    columns); the specification speaks of decimal prices.  Prices are
    modelled as exact rationals [Q]: [+], [-] and [*] are the exact
    operations, [round(x, 2)] is rounding to the nearest hundredth, and
    a division gives the exact quotient, or an infinity or NaN when the
    divisor is zero, as numpy's division does without raising.  What
    binary64 does differently at the last digit is not in this model;
    module [Binary64] embeds the pivot calculator once more on binary64
    itself, with numpy's [round], to evaluate it on given inputs. *)

From Stdlib Require Import ZArith QArith Qminmax Qround Lia Lqa List Sorted String Ascii Bool.
From Stdlib Require Import Uint63 PrimFloat FloatOps SpecFloat.
Import ListNotations.

Local Open Scope Z_scope.

(** ** Python's [round] on exact values *)

(** [round(x)] to an integer: [divmod] of numerator by denominator, then
    the remainder is compared with half of the denominator; an exact tie
    goes to the even neighbour. *)
Definition round_half_even (x : Q) : Z :=
  let floor := Qnum x / Zpos (Qden x) in
  let remainder := Qnum x mod Zpos (Qden x) in
  if remainder * 2 <? Zpos (Qden x) then floor
  else if Zpos (Qden x) <? remainder * 2 then floor + 1
  else if Z.even floor then floor
  else floor + 1.

(** [round(x, ndigits)] for [ndigits >= 0]: scale by [10 ** ndigits],
    round to an integer, scale back. *)
Definition py_round (x : Q) (ndigits : N) : Q :=
  let shift := Z.to_pos (10 ^ Z.of_N ndigits) in
  Qred (round_half_even (x * (Zpos shift # 1)) # shift).

(** ** The pivot calculator *)

(** The dictionary returned by [calculate_pivot_points]: seven fixed keys. *)
Record PivotLevels : Type := mkPivotLevels {
  P : Q; R1 : Q; R2 : Q; R3 : Q; S1 : Q; S2 : Q; S3 : Q
}.

Local Open Scope Q_scope.

Definition calculate_pivot_points (high low close : Q) : PivotLevels :=
  let pivot := (high + low + close) / 3 in
  let r1 := 2 * pivot - low in
  let s1 := 2 * pivot - high in
  let r2 := pivot + (high - low) in
  let s2 := pivot - (high - low) in
  let r3 := high + 2 * (pivot - low) in
  let s3 := low - 2 * (high - pivot) in
  {| P := py_round pivot 2;
     R1 := py_round r1 2;
     R2 := py_round r2 2;
     R3 := py_round r3 2;
     S1 := py_round s1 2;
     S2 := py_round s2 2;
     S3 := py_round s3 2 |}.

Local Close Scope Q_scope.

(** ** The pivot calculator on binary64 *)

Module Binary64.

Local Open Scope float_scope.

(** C's [rint]: the nearest whole number, half-way cases to the even one
    (adding and taking away 2^52 rounds off the fraction); values from
    2^52 on, infinities and NaN are returned as they are. *)
Definition rint (x : float) : float :=
  if abs x <? 0x1p52 then
    if x <? 0 then (x - 0x1p52) + 0x1p52 else (x + 0x1p52) - 0x1p52
  else x.

(** [round(x, decimals)] on a [numpy.float64], for [decimals > 0]:
    multiply by [10 ** decimals], [rint], divide by [10 ** decimals]. *)
Definition power_of_ten (decimals : nat) : float :=
  Nat.iter decimals (fun y => y * 10) 1.

Definition np_round (x : float) (decimals : nat) : float :=
  rint (x * power_of_ten decimals) / power_of_ten decimals.

Record PivotLevels : Type := mkPivotLevels {
  P : float; R1 : float; R2 : float; R3 : float;
  S1 : float; S2 : float; S3 : float
}.

Definition calculate_pivot_points (high low close : float) : PivotLevels :=
  let pivot := (high + low + close) / 3 in
  let r1 := 2 * pivot - low in
  let s1 := 2 * pivot - high in
  let r2 := pivot + (high - low) in
  let s2 := pivot - (high - low) in
  let r3 := high + 2 * (pivot - low) in
  let s3 := low - 2 * (high - pivot) in
  {| P := np_round pivot 2;
     R1 := np_round r1 2;
     R2 := np_round r2 2;
     R3 := np_round r3 2;
     S1 := np_round s1 2;
     S2 := np_round s2 2;
     S3 := np_round s3 2 |}.

(** The rational a finite binary64 value stands for. *)
Definition exact (x : float) : option Q :=
  match Prim2SF x with
  | S754_zero _ => Some 0%Q
  | S754_finite negative m e =>
      let mag := (inject_Z (Zpos m) * Qpower 2 e)%Q in
      Some (if negative then (- mag)%Q else mag)
  | S754_infinity _ => None
  | S754_nan => None
  end.

(** The binary64 value nearest to [k] hundredths, for [k] of at most 53
    bits. *)
Definition of_hundredths (k : Z) : float :=
  if (k <? 0)%Z then - (of_uint63 (Uint63.of_Z (- k)) / 100)
  else of_uint63 (Uint63.of_Z k) / 100.

(** [check] holds of every whole number from 0 up to, not including,
    [count]. *)
Definition for_all_below (check : Z -> bool) (count : positive) : bool :=
  fst (Pos.iter (fun st : bool * Z => (fst st && check (snd st), (snd st + 1)%Z))
                (true, 0%Z) count).

(** For high = low = close = [k] hundredths all seven levels are [k]
    hundredths. *)
Definition flat_month_kept (k : Z) : bool :=
  let x := of_hundredths k in
  let lv := calculate_pivot_points x x x in
  (P lv =? x) && (R1 lv =? x) && (R2 lv =? x) && (R3 lv =? x) &&
  (S1 lv =? x) && (S2 lv =? x) && (S3 lv =? x).

End Binary64.

(** ** Exceptions, standard output and the [try]/[except] statement *)

(** An instance of Python's [Exception]: its class name and [str(e)]. *)
Record Exception : Type := mkException {
  exc_class : string;
  exc_str : string
}.

Definition IndexError : Exception :=
  mkException "IndexError" "single positional indexer is out-of-bounds".
Definition OverflowError : Exception :=
  mkException "OverflowError" "date value out of range".
Definition ValueError : Exception :=
  mkException "ValueError" "day is out of range for month".

(** How an expression completes: with a value, or by raising. *)
Inductive result (A : Type) : Type :=
| Ok (a : A)
| Raise (e : Exception).
Arguments Ok {A} a.
Arguments Raise {A} e.

Definition result_bind {A B} (r : result A) (k : A -> result B) : result B :=
  match r with
  | Ok a => k a
  | Raise e => Raise e
  end.

Declare Scope result_scope.
Delimit Scope result_scope with res.
Notation "x <- m ;; k" := (result_bind m (fun x => k))
  (at level 61, m at next level, right associativity) : result_scope.

(** Statements run against the lines printed so far and may raise. *)
Definition stdout : Type := list string.
Definition Py (A : Type) : Type := stdout -> stdout * result A.

Definition ret {A} (a : A) : Py A := fun out => (out, Ok a).
Definition bind {A B} (m : Py A) (k : A -> Py B) : Py B :=
  fun out =>
    match m out with
    | (out', Ok a) => k a out'
    | (out', Raise e) => (out', Raise e)
    end.
Definition lift {A} (r : result A) : Py A := fun out => (out, r).
Definition print (line : string) : Py unit :=
  fun out => (out ++ [line], Ok tt).

(** [try: body except Exception as e: handler e]. *)
Definition try_except {A} (body : Py A) (handler : Exception -> Py A) : Py A :=
  fun out =>
    match body out with
    | (out', Ok a) => (out', Ok a)
    | (out', Raise e) => handler e out'
    end.

Declare Scope py_scope.
Delimit Scope py_scope with py.
Notation "x <- m ;; k" := (bind m (fun x => k))
  (at level 61, m at next level, right associativity) : py_scope.

(** ** Calendar dates *)

(** The date part of a [datetime] or of a pandas [Timestamp]; the time of
    day plays no part in [strftime('%Y-%m')] or [strftime('%Y-%m-%d')]. *)
Record datetime : Type := mkDate {
  year : Z;
  month : Z;
  day : Z
}.

Definition is_leap (y : Z) : bool :=
  (y mod 4 =? 0) && (negb (y mod 100 =? 0) || (y mod 400 =? 0)).

Definition days_in_month (y m : Z) : Z :=
  if m =? 2 then (if is_leap y then 29 else 28)
  else if (m =? 4) || (m =? 6) || (m =? 9) || (m =? 11) then 30
  else 31.

(** [MINYEAR = 1], [MAXYEAR = 9999]. *)
Definition valid_date (d : datetime) : Prop :=
  1 <= year d <= 9999 /\ 1 <= month d <= 12 /\
  1 <= day d <= days_in_month (year d) (month d).

(** [d.replace(day=n)]. *)
Definition replace_day (d : datetime) (n : Z) : result datetime :=
  if (1 <=? n) && (n <=? days_in_month (year d) (month d))
  then Ok (mkDate (year d) (month d) n)
  else Raise ValueError.

(** [d - timedelta(days=1)]; there is no date before 0001-01-01. *)
Definition yesterday (d : datetime) : result datetime :=
  if 1 <? day d then Ok (mkDate (year d) (month d) (day d - 1))
  else if 1 <? month d
  then Ok (mkDate (year d) (month d - 1) (days_in_month (year d) (month d - 1)))
  else if 1 <? year d then Ok (mkDate (year d - 1) 12 31)
  else Raise OverflowError.

(** [d - timedelta(days=n)] for [n >= 0]. *)
Fixpoint sub_days (d : datetime) (n : nat) : result datetime :=
  match n with
  | O => Ok d
  | S k => (d' <- yesterday d ;; sub_days d' k)%res
  end.

(** [d.toordinal()]: day 1 is 0001-01-01. *)
Definition days_before_year (y : Z) : Z :=
  let y' := y - 1 in y' * 365 + y' / 4 - y' / 100 + y' / 400.

Fixpoint days_before_month_aux (y : Z) (m : nat) : Z :=
  match m with
  | O => 0
  | S k => days_before_month_aux y k + days_in_month y (Z.of_nat (S k))
  end.

Definition days_before_month (y m : Z) : Z :=
  days_before_month_aux y (Z.to_nat (m - 1)).

Definition toordinal (d : datetime) : Z :=
  days_before_year (year d) + days_before_month (year d) (month d) + day d.

(** Decimal formatting with leading zeros, as [%m] and [%d] (two digits)
    and [%Y] (four digits) print it. *)
Definition digit (n : Z) : ascii := ascii_of_nat (48 + Z.to_nat (n mod 10)).

Definition zfill2 (n : Z) : string :=
  String (digit (n / 10)) (String (digit n) EmptyString).

Definition zfill4 (n : Z) : string :=
  String (digit (n / 1000)) (String (digit (n / 100)) (zfill2 n)).

(** [d.strftime('%Y-%m')]. *)
Definition strftime_Y_m (d : datetime) : string :=
  (zfill4 (year d) ++ "-" ++ zfill2 (month d))%string.

(** [d.strftime('%Y-%m-%d')]. *)
Definition strftime_Y_m_d (d : datetime) : string :=
  (strftime_Y_m d ++ "-" ++ zfill2 (day d))%string.

(** ** The fetched frame *)

(** One row of the frame [yf.download] returns, after [reset_index] has
    turned the date index into the [Date] column. *)
Record Row : Type := mkRow {
  Date : datetime;
  Open : Q;
  High : Q;
  Low : Q;
  Close : Q;
  Volume : Z
}.

Definition DataFrame : Type := list Row.

(** [df.empty]. *)
Definition empty (df : DataFrame) : bool :=
  match df with
  | [] => true
  | _ :: _ => false
  end.

(** [s.iloc[i]]: a negative position counts from the end; a position
    outside the column raises [IndexError]. *)
Definition iloc {A : Type} (s : list A) (i : Z) : result A :=
  let n := Z.of_nat (List.length s) in
  let pos := if i <? 0 then n + i else i in
  if (0 <=? pos) && (pos <? n)
  then match nth_error s (Z.to_nat pos) with
       | Some a => Ok a
       | None => Raise IndexError
       end
  else Raise IndexError.

(** [.max()] and [.min()] of a column with first entry [x] and further
    entries [xs]. *)
Definition series_max (x : Q) (xs : list Q) : Q := fold_left Qmax xs x.
Definition series_min (x : Q) (xs : list Q) : Q := fold_left Qmin xs x.

(** A binary64 result of a division: the quotient, or what numpy returns
    for a zero divisor (with a warning, not an exception). *)
Inductive np_float : Type :=
| Finite (q : Q)
| PosInf
| NegInf
| NaN.

(** [x / y]. *)
Definition np_truediv (x y : Q) : np_float :=
  if Qeq_bool y 0 then
    if Qeq_bool x 0 then NaN
    else if Qle_bool 0 x then PosInf else NegInf
  else Finite (x / y).

(** [x * k]. *)
Definition np_mul (x : np_float) (k : Q) : np_float :=
  match x with
  | Finite q => Finite (q * k)
  | PosInf =>
      if Qeq_bool k 0 then NaN else if Qle_bool 0 k then PosInf else NegInf
  | NegInf =>
      if Qeq_bool k 0 then NaN else if Qle_bool 0 k then NegInf else PosInf
  | NaN => NaN
  end.

(** [x >= y]: false for NaN. *)
Definition np_ge (x : np_float) (y : Q) : bool :=
  match x with
  | Finite q => Qle_bool y q
  | PosInf => true
  | NegInf => false
  | NaN => false
  end.

(** One row of [chart_data]. *)
Record ChartPoint : Type := mkChartPoint {
  time : string;
  open : Q;
  high : Q;
  low : Q;
  close : Q;
  volume : Z
}.

(** The five values [load_chart_data] returns, each of which may be
    [None]: chart_data, current_price, volume, daily_change, pivot_points. *)
Definition Bundle : Type :=
  (option (list ChartPoint) * option Q * option Z * option np_float *
   option PivotLevels)%type.

Definition no_data : Bundle := (None, None, None, None, None).

(** ** The chart data assembler *)

(** [(now.replace(day=1) - timedelta(days=1)).strftime('%Y-%m')] *)
Definition prev_month_of (now : datetime) : result string :=
  (first <- replace_day now 1 ;;
   d <- sub_days first 1 ;;
   Ok (strftime_Y_m d))%res.

(** [df[df['Date'].dt.strftime('%Y-%m') == prev_month]] *)
Definition select_month (prev_month : string) (df : DataFrame) : DataFrame :=
  filter (fun row => String.eqb (strftime_Y_m (Date row)) prev_month) df.

(** The [if len(prev_month_data) > 0: ... else: pivot_points = None]
    statement. *)
Definition monthly_pivot_points (prev_month_data : DataFrame)
  : option PivotLevels :=
  match prev_month_data with
  | [] => None
  | row :: rows =>
      let monthly_high := series_max (High row) (map High rows) in
      let monthly_low := series_min (Low row) (map Low rows) in
      let monthly_close := Close (last rows row) in
      Some (calculate_pivot_points monthly_high monthly_low monthly_close)
  end.

(** The [chart_data] frame: one row per row of [df], in the same order. *)
Definition chart_point (row : Row) : ChartPoint :=
  {| time := strftime_Y_m_d (Date row);
     open := Open row;
     high := High row;
     low := Low row;
     close := Close row;
     volume := Volume row |}.

Definition make_chart_data (df : DataFrame) : list ChartPoint :=
  map chart_point df.

(** The statements from [chart_data = ...] to the [return]: the chart
    frame, the latest price, the change against the bar before, and the
    latest volume. *)
Definition normalize (df : DataFrame)
  : result (list ChartPoint * Q * Z * np_float) :=
  (let chart_data := make_chart_data df in
   current_price <- iloc (map Close df) (-1) ;;
   prev_price <- iloc (map Close df) (-2) ;;
   let daily_change :=
     np_mul (np_truediv (current_price - prev_price)%Q prev_price) 100 in
   volume <- iloc (map Volume df) (-1) ;;
   Ok (chart_data, current_price, volume, daily_change))%res.

Local Open Scope py_scope.

(** [download] is the call [yf.download(ticker, period='ytd',
    interval='1d')], [now] the reading of [datetime.now()]; the clock is
    taken to show the same date at each of its three readings.  The
    [st.cache_data] decorator, which replays a stored result for a symbol
    seen before, is left out. *)
Definition load_chart_data (download : string -> Py DataFrame)
    (now : datetime) (symbol : string) : Py Bundle :=
  let ticker := (symbol ++ ".NS")%string in
  try_except
    (let end_date := now in
     start_date <- lift (sub_days end_date 60) ;;
     df <- download ticker ;;
     if negb (empty df) then
       let current_month := strftime_Y_m now in
       prev_month <- lift (prev_month_of now) ;;
       let prev_month_data := select_month prev_month df in
       let pivot_points := monthly_pivot_points prev_month_data in
       summary <- lift (normalize df) ;;
       let '(chart_data, current_price, volume, daily_change) := summary in
       ret (Some chart_data, Some current_price, Some volume,
            Some daily_change, pivot_points)
     else ret no_data)
    (fun e =>
       _ <- print ("Error loading data: " ++ exc_str e)%string ;;
       ret no_data).

(** ** The page loop *)

(** What [create_chart] hands to the chart widget. *)
Record Chart : Type := mkChart {
  chart_name : string;
  chart_price : Q;
  chart_volume : Z;
  chart_change : np_float;
  change_up : bool;
  horizontal_lines : list Q;
  chart_series : list ChartPoint
}.

Definition TypeError : Exception :=
  mkException "TypeError"
    "'>=' not supported between instances of 'NoneType' and 'int'".

(** [create_chart]: [None] when there is no chart data; the header
    compares and formats price, change and volume, which fails on
    [None]. *)
Definition create_chart (name : string) (b : Bundle) : result (option Chart) :=
  match b with
  | (Some chart_data, current_price, volume, daily_change, pivot_points) =>
      match daily_change, current_price, volume with
      | Some change, Some price, Some vol =>
          Ok (Some {| chart_name := name;
                      chart_price := price;
                      chart_volume := vol;
                      chart_change := change;
                      change_up := np_ge change 0;
                      horizontal_lines :=
                        match pivot_points with
                        | Some lv => [P lv; R1 lv; R2 lv; R3 lv;
                                      S1 lv; S2 lv; S3 lv]
                        | None => []
                        end;
                      chart_series := chart_data |})
      | _, _, _ => Raise TypeError
      end
  | (None, _, _, _, _) => Ok None
  end.

(** One slot of the grid: load, then draw when there is chart data. *)
Definition show_chart (download : string -> Py DataFrame) (now : datetime)
    (stock : string * string) : Py (option Chart) :=
  let symbol := fst stock in
  let name := snd stock in
  b <- load_chart_data download now symbol ;;
  lift (create_chart name b).

(** [for i in range(start_idx, end_idx, 2)]: the stocks of the page are
    taken two at a time, the first into the left column and the second,
    when there is one, into the right column. *)
Fixpoint page_loop (download : string -> Py DataFrame) (now : datetime)
    (stocks : list (string * string)) : Py (list (option Chart)) :=
  match stocks with
  | [] => ret []
  | first :: rest =>
      c1 <- show_chart download now first ;;
      match rest with
      | [] => ret [c1]
      | second :: rest' =>
          c2 <- show_chart download now second ;;
          cs <- page_loop download now rest' ;;
          ret (c1 :: c2 :: cs)
      end
  end.

Local Close Scope py_scope.

(** ** Pagination *)

Definition CHARTS_PER_PAGE : Z := 12.

(** [math.ceil(x)]. *)
Definition math_ceil (x : Q) : Z := Qceiling x.

(** [total_pages = math.ceil(len(stocks_df) / CHARTS_PER_PAGE)]. *)
Definition total_pages (n : nat) : Z :=
  math_ceil (inject_Z (Z.of_nat n) / inject_Z CHARTS_PER_PAGE).

(** [start_idx = (current_page - 1) * CHARTS_PER_PAGE]. *)
Definition start_idx (page : Z) : Z := (page - 1) * CHARTS_PER_PAGE.

(** [end_idx = min(start_idx + CHARTS_PER_PAGE, len(stocks_df))]. *)
Definition end_idx (page : Z) (n : nat) : Z :=
  Z.min (start_idx page + CHARTS_PER_PAGE) (Z.of_nat n).

(** [range(start, stop, step)] for a positive step: it has
    [max(0, (stop - start + step - 1) // step)] elements. *)
Fixpoint range_from (count : nat) (start step : Z) : list Z :=
  match count with
  | O => []
  | S k => start :: range_from k (start + step) step
  end.

Definition py_range (start stop step : Z) : list Z :=
  range_from (Z.to_nat ((stop - start + step - 1) / step)) start step.

Local Open Scope py_scope.

(** The body of [for i in range(start_idx, end_idx, 2)], with the rows
    read through [stocks_df[...].iloc[i]]: the left column shows stock
    [i], the right column stock [i + 1] if [i + 1 < end_idx]. *)
Fixpoint display_rows (download : string -> Py DataFrame) (now : datetime)
    (stocks_df : list (string * string)) (stop : Z) (rows : list Z)
  : Py (list (option Chart)) :=
  match rows with
  | [] => ret []
  | i :: rest =>
      first <- lift (iloc stocks_df i) ;;
      c1 <- show_chart download now first ;;
      col2 <- (if i + 1 <? stop then
                 second <- lift (iloc stocks_df (i + 1)) ;;
                 c2 <- show_chart download now second ;;
                 ret [c2]
               else ret []) ;;
      cs <- display_rows download now stocks_df stop rest ;;
      ret (c1 :: col2 ++ cs)
  end.

(** The chart grid of page [page]. *)
Definition display_charts (download : string -> Py DataFrame) (now : datetime)
    (stocks_df : list (string * string)) (page : Z)
  : Py (list (option Chart)) :=
  let start := start_idx page in
  let stop := end_idx page (List.length stocks_df) in
  display_rows download now stocks_df stop (py_range start stop 2).

Local Close Scope py_scope.

(** ** Session state *)

(** [st.session_state] as a run of the script finds it: each of the two
    keys may be missing.  The selected table is [None] when there is no
    table to select. *)
Record RawSession : Type := mkRawSession {
  raw_current_page : option Z;
  raw_previous_table : option (option string)
}.

(** The session state once both keys are set. *)
Record Session : Type := mkSession {
  current_page : Z;
  previous_table : option string
}.

Definition table_eqb (a b : option string) : bool :=
  match a, b with
  | Some x, Some y => String.eqb x y
  | None, None => true
  | _, _ => false
  end.

(** The statements that initialise the two keys and go back to page 1
    when another table is selected. *)
Definition session_preamble (s : RawSession) (selected_table : option string)
  : Session :=
  let page :=
    match raw_current_page s with
    | Some p => p
    | None => 1
    end in
  let previous :=
    match raw_previous_table s with
    | Some t => t
    | None => selected_table
    end in
  if negb (table_eqb previous selected_table)
  then mkSession 1 selected_table
  else mkSession page previous.

Inductive Button : Type := Previous | Next.

(** [if selected_table:]: [None] and the empty string are false. *)
Definition truthy (selected_table : option string) : bool :=
  match selected_table with
  | Some t => negb (String.eqb t "")
  | None => false
  end.

(** The two buttons: a disabled button is never clicked; a click moves
    the page by one (and the script is run again). *)
Definition pagination_controls (n : nat) (clicked : option Button)
    (s : Session) : Session :=
  match clicked with
  | Some Previous =>
      if current_page s =? 1 then s
      else mkSession (current_page s - 1) (previous_table s)
  | Some Next =>
      if current_page s =? total_pages n then s
      else mkSession (current_page s + 1) (previous_table s)
  | None => s
  end.

(** One run of the script on the session state: [n] is the number of
    stocks of the selected table that pass the search. *)
Definition run_script (s : RawSession) (selected_table : option string)
    (n : nat) (clicked : option Button) : Session :=
  let s1 := session_preamble s selected_table in
  if truthy selected_table then pagination_controls n clicked s1 else s1.

(** The state the next run finds. *)
Definition stored (s : Session) : RawSession :=
  mkRawSession (Some (current_page s)) (Some (previous_table s)).

(** What the session state holds after a sequence of runs, each given by
    the selected table, the number of stocks to show and the button
    clicked, if any. *)
Fixpoint session_after (runs : list (option string * nat * option Button))
    (s : RawSession) : RawSession :=
  match runs with
  | [] => s
  | (selected_table, n, clicked) :: rest =>
      session_after rest (stored (run_script s selected_table n clicked))
  end.

(** ** Vocabulary of the specification *)




(** [r] is [x] rounded to two decimal places: [r] is a whole number [k]
    of hundredths, no other hundredth is nearer to [x], and when [x] lies
    exactly half-way between two hundredths [k] is the even one. *)
Definition rounded_2dp (x r : Q) : Prop :=
  exists k : Z,
    (r == k # 100 /\
     r - (1 # 200) <= x /\ x <= r + (1 # 200) /\
     (x == r - (1 # 200) \/ x == r + (1 # 200) -> Z.even k = true))%Q.

(** The same with half-way cases going away from zero. *)
Definition rounded_2dp_half_away (x r : Q) : Prop :=
  exists k : Z,
    (r == k # 100 /\
     r - (1 # 200) <= x /\ x <= r + (1 # 200) /\
     (x == r - (1 # 200) -> 0 <= r) /\ (x == r + (1 # 200) -> r <= 0))%Q.

(** The calendar month before month [m] of year [y]. *)
Definition prev_calendar_month (y m : Z) : Z * Z :=
  if m =? 1 then (y - 1, 12) else (y, m - 1).

Definition in_month (ym : Z * Z) (d : datetime) : bool :=
  (year d =? fst ym) && (month d =? snd ym).

(** Chronological order of dates. *)
Definition date_le (d1 d2 : datetime) : Prop :=
  year d1 < year d2 \/
  (year d1 = year d2 /\
   (month d1 < month d2 \/ (month d1 = month d2 /\ day d1 <= day d2))).

(** A reading of the clock: a date of the calendar from which sixty days
    can be taken away, as the assembler does first of all.  The calendar
    starts at 0001-01-01, which has ordinal 1. *)
Definition clock_ok (now : datetime) : Prop :=
  valid_date now /\ 60 < toordinal now.

(** Every row carries a date of the calendar. *)
Definition dates_valid (df : DataFrame) : Prop :=
  Forall (fun row => valid_date (Date row)) df.

(** Rows in ascending order of date. *)
Definition ascending (df : DataFrame) : Prop :=
  StronglySorted (fun a b => date_le (Date a) (Date b)) df.

(** [h] is the greatest, [l] the least entry of a column. *)
Definition is_max (h : Q) (xs : list Q) : Prop :=
  In h xs /\ forall x, In x xs -> (x <= h)%Q.
Definition is_min (l : Q) (xs : list Q) : Prop :=
  In l xs /\ forall x, In x xs -> (l <= x)%Q.

(** [change] is the percent change from [prev] to [current]: the value
    of (current - prev) / prev * 100 for a divisor that is not zero, and
    for a zero divisor an infinity with the sign of [current], or NaN
    when [current] is zero as well. *)
Definition is_percent_change (current prev : Q) (change : np_float) : Prop :=
  (~ (prev == 0)%Q ->
   change = Finite ((current - prev) / prev * 100)%Q) /\
  ((prev == 0)%Q -> (0 < current)%Q -> change = PosInf) /\
  ((prev == 0)%Q -> (current == 0)%Q -> change = NaN) /\
  ((prev == 0)%Q -> (current < 0)%Q -> change = NegInf).

(** [series] is the chart series of [df]: as long as [df], and at each
    position the chart row made from the bar at that position. *)
Definition is_chart_series (df : DataFrame) (series : list ChartPoint) : Prop :=
  List.length series = List.length df /\
  forall i row,
    nth_error df i = Some row ->
    nth_error series i =
    Some {| time := strftime_Y_m_d (Date row);
            open := Open row; high := High row; low := Low row;
            close := Close row; volume := Volume row |}.

(** The line the handler prints for exception [e]. *)
Definition error_line (e : Exception) : string :=
  ("Error loading data: " ++ exc_str e)%string.

(** The components of a returned bundle. *)
Definition chart_data_of (b : Bundle) : option (list ChartPoint) :=
  let '(chart_data, _, _, _, _) := b in chart_data.
Definition current_price_of (b : Bundle) : option Q :=
  let '(_, current_price, _, _, _) := b in current_price.
Definition volume_of (b : Bundle) : option Z :=
  let '(_, _, volume, _, _) := b in volume.
Definition daily_change_of (b : Bundle) : option np_float :=
  let '(_, _, _, daily_change, _) := b in daily_change.

Definition pivot_points_of (b : Bundle) : option PivotLevels :=
  let '(_, _, _, _, pivot_points) := b in pivot_points.

(** [l[start:stop]] for [0 <= start]. *)
Definition py_slice {A : Type} (l : list A) (start stop : Z) : list A :=
  firstn (Z.to_nat (stop - start)) (skipn (Z.to_nat start) l).

(** The stocks of page [page]: twelve a page, in order. *)
Definition page_slice {A : Type} (page : Z) (l : list A) : list A :=
  firstn 12 (skipn (Z.to_nat (start_idx page)) l).

(** What the slot of a stock holds: the chart made from what the
    assembler returned for its symbol. *)
Definition slot_of (download : string -> Py DataFrame) (now : datetime)
    (stock : string * string) (c : option Chart) : Prop :=
  exists o o' b,
    load_chart_data download now (fst stock) o = (o', Ok b) /\
    create_chart (snd stock) b = Ok c.

(** ** Sample inputs *)

Definition sample_row (d : datetime) (price : Q) : Row :=
  mkRow d price price price price 1000.

(** Today is 2024-03-10; the fetched bars reach from January to March. *)
Definition sample_clock : datetime := mkDate 2024 3 10.

Definition sample_frame : DataFrame :=
  [ mkRow (mkDate 2024 1 30) 10 12 9 11 100;
    mkRow (mkDate 2024 2 1) 11 13 10 12 200;
    mkRow (mkDate 2024 2 29) 12 15 11 14 300;
    mkRow (mkDate 2024 3 8) 14 16 13 15 400 ].

(** Bars of the current month only. *)
Definition march_frame : DataFrame :=
  [ mkRow (mkDate 2024 3 7) 13 15 12 14 300;
    mkRow (mkDate 2024 3 8) 14 16 13 15 400 ].

(** Two bars that both close at zero. *)
Definition zero_frame : DataFrame :=
  [ sample_row (mkDate 2024 3 7) 0; sample_row (mkDate 2024 3 8) 0 ].

(** A fetch that returns [df] for every ticker, one that raises [e] for
    every ticker, and one that raises for ticker B.NS only. *)
Definition fetch_returns (df : DataFrame) : string -> Py DataFrame :=
  fun _ out => (out, Ok df).

Definition fetch_raises (e : Exception) : string -> Py DataFrame :=
  fun _ out => (out, Raise e).

Definition ConnectionError : Exception :=
  mkException "ConnectionError" "connection refused".

Definition fetch_fails_for_B : string -> Py DataFrame :=
  fun ticker out =>
    if String.eqb ticker "B.NS" then (out, Raise ConnectionError)
    else (out, Ok sample_frame).

(** * Properties *)

(** ** Rounding *)

Lemma round_half_even_bounds (n : Z) (d : positive) :
  let k := round_half_even (n # d) in
  (2 * k - 1) * Zpos d <= 2 * n <= (2 * k + 1) * Zpos d /\
  (2 * n = (2 * k - 1) * Zpos d \/ 2 * n = (2 * k + 1) * Zpos d ->
   Z.even k = true).
Proof.
  unfold round_half_even; cbn [Qnum Qden].
  pose proof (Z.div_mod n (Zpos d) ltac:(lia)) as Hdm.
  pose proof (Z.mod_pos_bound n (Zpos d) ltac:(lia)) as Hr.
  set (f := n / Zpos d) in *. set (r := n mod Zpos d) in *.
  destruct (Z.ltb_spec (r * 2) (Zpos d)) as [H1 | H1].
  - split; [nia | intros [E | E]; exfalso; nia].
  - destruct (Z.ltb_spec (Zpos d) (r * 2)) as [H2 | H2].
    + split; [nia | intros [E | E]; exfalso; nia].
    + destruct (Z.even f) eqn:Ef.
      * split; [nia | auto].
      * split; [nia | intros _].
        rewrite Z.even_add, Ef. reflexivity.
Qed.

Lemma round_half_even_mono (x y : Q) :
  (x <= y)%Q -> round_half_even x <= round_half_even y.
Proof.
  destruct x as [n1 d1], y as [n2 d2]. unfold Qle; cbn [Qnum Qden].
  intros Hle.
  destruct (round_half_even_bounds n1 d1) as [[Hl1 Hu1] Ht1].
  destruct (round_half_even_bounds n2 d2) as [[Hl2 Hu2] Ht2].
  cbv zeta in *.
  set (k1 := round_half_even (n1 # d1)) in *.
  set (k2 := round_half_even (n2 # d2)) in *.
  destruct (Z_le_gt_dec k1 k2) as [|Hgt]; [assumption | exfalso].
  assert (Hd : 0 < Zpos d1 * Zpos d2) by lia.
  assert (Ha : (2 * k1 - 1) * (Zpos d1 * Zpos d2) <= 2 * n1 * Zpos d2) by nia.
  assert (Hb : 2 * n2 * Zpos d1 <= (2 * k2 + 1) * (Zpos d1 * Zpos d2)) by nia.
  assert (Hc : (2 * k1 - 1) * (Zpos d1 * Zpos d2)
               <= (2 * k2 + 1) * (Zpos d1 * Zpos d2)) by lia.
  assert (Hk : k1 = k2 + 1) by nia.
  assert (E1 : 2 * n1 = (2 * k1 - 1) * Zpos d1).
  { subst k1. apply Z.mul_cancel_r with (p := Zpos d2); [lia | nia]. }
  assert (E2 : 2 * n2 = (2 * k2 + 1) * Zpos d2).
  { apply Z.mul_cancel_r with (p := Zpos d1); [lia | nia]. }
  specialize (Ht1 (or_introl E1)). specialize (Ht2 (or_intror E2)).
  rewrite Hk, Z.even_add, Ht2 in Ht1. discriminate.
Qed.

Lemma round_half_even_nearest (y : Q) :
  let k := round_half_even y in
  (inject_Z k - (1 # 2) <= y /\ y <= inject_Z k + (1 # 2) /\
   (y == inject_Z k - (1 # 2) \/ y == inject_Z k + (1 # 2) ->
    Z.even k = true))%Q.
Proof.
  destruct y as [n d].
  destruct (round_half_even_bounds n d) as [[Hl Hu] Ht]. cbv zeta in *.
  set (k := round_half_even (n # d)) in *.
  unfold Qle, Qeq, Qminus, Qplus, Qopp, inject_Z; cbn [Qnum Qden].
  repeat split; try lia.
  intros [E | E]; apply Ht; [left | right]; lia.
Qed.

Lemma py_round_2 (x : Q) :
  (py_round x 2 == round_half_even (x * 100) # 100)%Q.
Proof.
  unfold py_round. rewrite Qred_correct. reflexivity.
Qed.

Lemma hundredths (k : Z) : ((k # 100) * 100 == inject_Z k)%Q.
Proof. rewrite Qmake_Qdiv. field. Qed.

Lemma py_round_mono (x y : Q) :
  (x <= y)%Q -> (py_round x 2 <= py_round y 2)%Q.
Proof.
  intros Hxy. rewrite !py_round_2.
  assert (Hs : (x * 100 <= y * 100)%Q) by lra.
  apply round_half_even_mono in Hs.
  unfold Qle; cbn [Qnum Qden]. lia.
Qed.

Lemma py_round_rounded (x : Q) : rounded_2dp x (py_round x 2).
Proof.
  exists (round_half_even (x * 100)).
  pose proof (py_round_2 x) as Hr.
  destruct (round_half_even_nearest (x * 100)) as (Hl & Hu & Ht).
  cbv zeta in *. set (k := round_half_even (x * 100)) in *.
  pose proof (hundredths k) as Hk. rewrite <- Hr in Hk.
  split; [exact Hr |].
  split; [lra |]. split; [lra |].
  intros [E | E]; apply Ht; [left | right]; lra.
Qed.

Lemma inject_Z_le_succ (a b : Z) :
  (inject_Z a + 1 <= inject_Z b)%Q <-> a + 1 <= b.
Proof. unfold Qle, Qplus, inject_Z; cbn [Qnum Qden]. lia. Qed.

Lemma inject_Z_succ_le (a b : Z) :
  (inject_Z b <= inject_Z a + 1)%Q <-> b <= a + 1.
Proof. unfold Qle, Qplus, inject_Z; cbn [Qnum Qden]. lia. Qed.

(** Rounding to two places names one value only. *)
Lemma rounded_2dp_unique (x r r' : Q) :
  rounded_2dp x r -> rounded_2dp x r' -> (r == r')%Q.
Proof.
  intros (k & Hr & Hl & Hu & Ht) (k' & Hr' & Hl' & Hu' & Ht').
  pose proof (hundredths k) as Hk. rewrite <- Hr in Hk.
  pose proof (hundredths k') as Hk'. rewrite <- Hr' in Hk'.
  assert (Hkk : k = k').
  { destruct (Z.lt_trichotomy k k') as [Hlt | [Heq | Hgt]];
      [exfalso | assumption | exfalso].
    - assert (Hz : (inject_Z k + 1 <= inject_Z k')%Q)
        by (apply inject_Z_le_succ; lia).
      assert (Hq : (inject_Z k' <= inject_Z k + 1)%Q) by lra.
      apply inject_Z_succ_le in Hq.
      assert (Hs : k' = k + 1) by lia.
      assert (E1 : (x == r + (1 # 200))%Q) by lra.
      assert (E2 : (x == r' - (1 # 200))%Q) by lra.
      specialize (Ht (or_intror E1)). specialize (Ht' (or_introl E2)).
      rewrite Hs, Z.even_add, Ht in Ht'. discriminate.
    - assert (Hz : (inject_Z k' + 1 <= inject_Z k)%Q)
        by (apply inject_Z_le_succ; lia).
      assert (Hq : (inject_Z k <= inject_Z k' + 1)%Q) by lra.
      apply inject_Z_succ_le in Hq.
      assert (Hs : k = k' + 1) by lia.
      assert (E1 : (x == r' + (1 # 200))%Q) by lra.
      assert (E2 : (x == r - (1 # 200))%Q) by lra.
      specialize (Ht (or_introl E2)). specialize (Ht' (or_intror E1)).
      rewrite Hs, Z.even_add, Ht' in Ht. discriminate. }
  subst k'. rewrite Hr, Hr'. reflexivity.
Qed.

(** ** The pivot calculator *)

Lemma pivot_times_3 (h l c : Q) : (3 * ((h + l + c) / 3) == h + l + c)%Q.
Proof. field. Qed.


(** C9: for high = 110.00, low = 100.00, close = 105.00 the calculator
    returns P = 105.00, R1 = 110.00, S1 = 100.00, R2 = 115.00, S2 = 95.00,
    R3 = 120.00 and S3 = 90.00. *)
Theorem pivot_example :
  calculate_pivot_points 110 100 105 =
  {| P := 105; R1 := 110; S1 := 100; R2 := 115; S2 := 95;
     R3 := 120; S3 := 90 |}.
Proof. vm_compute. reflexivity. Qed.


(** On binary64 the code returns the same levels for the two inputs
    above: the example of the specification, and the input with the
    close above the high, where S1 = 130 is above P = 120. *)
Remark binary64_examples :
  Binary64.calculate_pivot_points 110 100 105 =
  Binary64.mkPivotLevels 105 110 115 120 100 95 90 /\
  Binary64.calculate_pivot_points 110 100 150 =
  Binary64.mkPivotLevels 120 140 130 150 130 110 120.
Proof. vm_compute. split; reflexivity. Qed.

(** In binary64 two levels whose formula values agree can come out a
    hundredth apart: for high = low = close = 0.24500000000000005 the
    code returns P = 0.25 and R1 = 0.24. *)
Remark binary64_levels_a_hundredth_apart :
  let x := 0x1.f5c28f5c28f5ep-3%float in
  let lv := Binary64.calculate_pivot_points x x x in
  Binary64.P lv = Binary64.of_hundredths 25 /\
  Binary64.R1 lv = Binary64.of_hundredths 24 /\
  Binary64.S1 lv = Binary64.of_hundredths 24 /\
  Binary64.R2 lv = Binary64.of_hundredths 25 /\
  Binary64.S2 lv = Binary64.of_hundredths 25.
Proof. vm_compute. repeat split. Qed.








(** The rounding is not half-away-from-zero: a pivot of exactly 0.125 is
    returned as 0.12, where half-away-from-zero gives 0.13. *)
Remark pivot_half_way_goes_to_even :
  P (calculate_pivot_points (1 # 8) (1 # 8) (1 # 8)) = (3 # 25)%Q /\
  ~ rounded_2dp_half_away (1 # 8)
      (P (calculate_pivot_points (1 # 8) (1 # 8) (1 # 8))) /\
  rounded_2dp_half_away (1 # 8) (13 # 100).
Proof.
  split; [vm_compute; reflexivity | split].
  - intros (k & _ & _ & _ & _ & Hhi).
    assert (E : ((1 # 8) ==
                 P (calculate_pivot_points (1 # 8) (1 # 8) (1 # 8)) + (1 # 200))%Q)
      by (vm_compute; reflexivity).
    specialize (Hhi E). vm_compute in Hhi. apply Hhi. reflexivity.
  - exists 13. repeat split; vm_compute; discriminate.
Qed.

(** ** The calendar *)

Lemma days_in_month_bounds (y m : Z) : 28 <= days_in_month y m <= 31.
Proof.
  unfold days_in_month.
  destruct (m =? 2); [destruct (is_leap y); lia |].
  destruct ((m =? 4) || (m =? 6) || (m =? 9) || (m =? 11)); lia.
Qed.

Lemma days_before_month_succ (y m : Z) :
  1 <= m ->
  days_before_month y (m + 1) = days_before_month y m + days_in_month y m.
Proof.
  intros Hm. unfold days_before_month.
  replace (Z.to_nat (m + 1 - 1)) with (S (Z.to_nat (m - 1))) by lia.
  cbn [days_before_month_aux]. do 2 f_equal. lia.
Qed.

Lemma days_before_month_1 (y : Z) : days_before_month y 1 = 0.
Proof. reflexivity. Qed.

(** A year has 365 days, a leap year 366. *)
Lemma days_before_month_13 (y : Z) :
  days_before_month y 12 + 31 = if is_leap y then 366 else 365.
Proof.
  cbv - [is_leap]. destruct (is_leap y); reflexivity.
Qed.

Lemma days_before_year_succ (y : Z) :
  days_before_year (y + 1) =
  days_before_year y + (if is_leap y then 366 else 365).
Proof.
  unfold days_before_year, is_leap. cbv zeta.
  replace (y + 1 - 1) with y by lia.
  destruct (Z.eqb_spec (y mod 4) 0) as [H4 | H4];
  destruct (Z.eqb_spec (y mod 100) 0) as [H100 | H100];
  destruct (Z.eqb_spec (y mod 400) 0) as [H400 | H400];
  cbn [andb orb negb]; Z.div_mod_to_equations; lia.
Qed.

(** The day before [d]: it exists unless [d] is the first day there is,
    and it is a date of the calendar with the ordinal one less. *)
Lemma yesterday_ordinal (d : datetime) :
  valid_date d -> 1 < toordinal d ->
  exists d', yesterday d = Ok d' /\ valid_date d' /\
             toordinal d' = toordinal d - 1.
Proof.
  destruct d as [y m dd]. unfold valid_date, yesterday, toordinal.
  cbn [year month day]. intros (Hy & Hm & Hd) Hord.
  destruct (Z.ltb_spec 1 dd) as [Hdd | Hdd].
  - eexists; split; [reflexivity |]. cbn [year month day].
    split; [lia | lia].
  - assert (dd = 1) by lia; subst dd.
    destruct (Z.ltb_spec 1 m) as [Hmm | Hmm].
    + eexists; split; [reflexivity |]. cbn [year month day].
      pose proof (days_in_month_bounds y (m - 1)).
      pose proof (days_before_month_succ y (m - 1) ltac:(lia)) as Hs.
      replace (m - 1 + 1) with m in Hs by lia.
      split; [lia | lia].
    + assert (m = 1) by lia; subst m.
      destruct (Z.ltb_spec 1 y) as [Hyy | Hyy].
      * eexists; split; [reflexivity |]. cbn [year month day].
        pose proof (days_before_month_13 (y - 1)) as H13.
        pose proof (days_before_year_succ (y - 1)) as Hsucc.
        replace (y - 1 + 1) with y in Hsucc by lia.
        rewrite days_before_month_1 in *.
        split; [|lia].
        split; [lia | split; [lia |]].
        unfold days_in_month. cbn. lia.
      * assert (y = 1) by lia; subst y.
        rewrite days_before_month_1 in Hord.
        change (days_before_year 1) with 0 in Hord. lia.
Qed.

Lemma sub_days_ordinal (n : nat) : forall d : datetime,
  valid_date d -> Z.of_nat n < toordinal d ->
  exists d', sub_days d n = Ok d' /\ valid_date d' /\
             toordinal d' = toordinal d - Z.of_nat n.
Proof.
  induction n as [|n IH]; intros d Hv Hn.
  - exists d. cbn [sub_days]. repeat split; try apply Hv. lia.
  - destruct (yesterday_ordinal d Hv ltac:(lia)) as (d1 & Hy & Hv1 & Ho1).
    destruct (IH d1 Hv1 ltac:(lia)) as (d' & Hs & Hv' & Ho').
    exists d'. cbn [sub_days]. rewrite Hy. cbn [result_bind].
    repeat split; try apply Hv'; [exact Hs | lia].
Qed.

Lemma clock_not_first_month (now : datetime) :
  clock_ok now -> 1 < year now \/ 1 < month now.
Proof.
  intros ((Hy & Hm & Hd) & Hord).
  destruct (Z_lt_dec 1 (year now)) as [|Hy1]; [left; assumption | right].
  destruct (Z_lt_dec 1 (month now)) as [|Hm1]; [assumption | exfalso].
  unfold toordinal in Hord.
  replace (year now) with 1 in * by lia.
  replace (month now) with 1 in * by lia.
  pose proof (days_in_month_bounds 1 1).
  rewrite days_before_month_1 in Hord.
  change (days_before_year 1) with 0 in Hord. lia.
Qed.

Lemma clock_sub_days_60 (now : datetime) :
  clock_ok now -> exists d, sub_days now 60 = Ok d.
Proof.
  intros (Hv & Hord).
  destruct (sub_days_ordinal 60 now Hv ltac:(lia)) as (d & Hs & _).
  exists d. exact Hs.
Qed.

(** The month the assembler looks for is the calendar month before the
    month of the clock. *)
Lemma prev_month_of_calendar (now : datetime) :
  valid_date now -> 1 < year now \/ 1 < month now ->
  exists d,
    prev_month_of now = Ok (strftime_Y_m d) /\
    (year d, month d) = prev_calendar_month (year now) (month now) /\
    0 <= year d <= 9999 /\ 1 <= month d <= 12.
Proof.
  intros (Hy & Hm & Hd) Hfirst.
  unfold prev_month_of, replace_day.
  pose proof (days_in_month_bounds (year now) (month now)) as Hb.
  replace ((1 <=? 1) && (1 <=? days_in_month (year now) (month now)))
    with true
    by (symmetry; apply andb_true_intro; split; apply Z.leb_le; lia).
  cbn [result_bind sub_days]. unfold yesterday. cbn [year month day].
  replace (1 <? 1) with false by reflexivity.
  unfold prev_calendar_month.
  destruct (Z.ltb_spec 1 (month now)) as [Hm1 | Hm1].
  - replace (month now =? 1) with false by (symmetry; apply Z.eqb_neq; lia).
    eexists; cbn [result_bind]; split; [reflexivity |].
    cbn [year month]. split; [reflexivity | lia].
  - replace (month now =? 1) with true by (symmetry; apply Z.eqb_eq; lia).
    replace (1 <? year now) with true by (symmetry; apply Z.ltb_lt; lia).
    eexists; cbn [result_bind]; split; [reflexivity |].
    cbn [year month]. split; [reflexivity | lia].
Qed.

(** ** Printing dates *)

Lemma digit_inj (a b : Z) : digit a = digit b -> a mod 10 = b mod 10.
Proof.
  unfold digit. intros H.
  pose proof (Z.mod_pos_bound a 10 ltac:(lia)).
  pose proof (Z.mod_pos_bound b 10 ltac:(lia)).
  apply (f_equal nat_of_ascii) in H.
  rewrite !nat_ascii_embedding in H by lia. lia.
Qed.

Lemma zfill2_inj (a b : Z) :
  0 <= a < 100 -> 0 <= b < 100 -> zfill2 a = zfill2 b -> a = b.
Proof.
  intros Ha Hb H. unfold zfill2 in H. injection H as H1 H0.
  apply digit_inj in H1, H0. Z.div_mod_to_equations. lia.
Qed.

Lemma zfill4_inj (a b : Z) :
  0 <= a < 10000 -> 0 <= b < 10000 -> zfill4 a = zfill4 b -> a = b.
Proof.
  intros Ha Hb H. unfold zfill4, zfill2 in H. injection H as H3 H2 H1 H0.
  apply digit_inj in H3, H2, H1, H0. Z.div_mod_to_equations. lia.
Qed.

(** Two dates print the same ['%Y-%m'] exactly when they lie in the same
    month of the same year. *)
Lemma strftime_Y_m_inj (d1 d2 : datetime) :
  0 <= year d1 <= 9999 -> 1 <= month d1 <= 12 ->
  0 <= year d2 <= 9999 -> 1 <= month d2 <= 12 ->
  strftime_Y_m d1 = strftime_Y_m d2 ->
  year d1 = year d2 /\ month d1 = month d2.
Proof.
  intros Hy1 Hm1 Hy2 Hm2 H. unfold strftime_Y_m in H.
  assert (Hz : zfill4 (year d1) = zfill4 (year d2) /\
               zfill2 (month d1) = zfill2 (month d2)).
  { unfold zfill4, zfill2 in *. cbn [String.append] in H.
    injection H as -> -> -> -> -> ->. split; reflexivity. }
  destruct Hz as [H4 H2].
  split; [apply zfill4_inj | apply zfill2_inj]; auto; lia.
Qed.

Lemma strftime_eqb_in_month (d1 d2 : datetime) :
  0 <= year d1 <= 9999 -> 1 <= month d1 <= 12 ->
  0 <= year d2 <= 9999 -> 1 <= month d2 <= 12 ->
  String.eqb (strftime_Y_m d1) (strftime_Y_m d2) =
  in_month (year d2, month d2) d1.
Proof.
  intros Hy1 Hm1 Hy2 Hm2. unfold in_month. cbn [fst snd].
  destruct (String.eqb_spec (strftime_Y_m d1) (strftime_Y_m d2)) as [E | E].
  - destruct (strftime_Y_m_inj d1 d2 Hy1 Hm1 Hy2 Hm2 E) as [-> ->].
    rewrite !Z.eqb_refl. reflexivity.
  - symmetry. apply andb_false_iff.
    destruct (Z.eqb_spec (year d1) (year d2)) as [Ey | Ey]; [| left; reflexivity].
    destruct (Z.eqb_spec (month d1) (month d2)) as [Em | Em]; [| right; reflexivity].
    exfalso. apply E. unfold strftime_Y_m. rewrite Ey, Em. reflexivity.
Qed.

(** ** Positions counted from the end *)

Lemma iloc_from_end {A : Type} (s : list A) (k : nat) (a : A) :
  (0 < k)%nat ->
  nth_error s (List.length s - k) = Some a -> (k <= List.length s)%nat ->
  iloc s (- Z.of_nat k) = Ok a.
Proof.
  intros Hk Hn Hle. unfold iloc.
  replace (- Z.of_nat k <? 0) with true by (symmetry; apply Z.ltb_lt; lia).
  replace ((0 <=? Z.of_nat (List.length s) + - Z.of_nat k) &&
           (Z.of_nat (List.length s) + - Z.of_nat k <? Z.of_nat (List.length s)))
    with true
    by (symmetry; apply andb_true_intro; split;
        [apply Z.leb_le | apply Z.ltb_lt]; lia).
  replace (Z.to_nat (Z.of_nat (List.length s) + - Z.of_nat k))
    with (List.length s - k)%nat by lia.
  rewrite Hn. reflexivity.
Qed.

Lemma iloc_last {A : Type} (s : list A) (a : A) :
  nth_error s (List.length s - 1) = Some a -> iloc s (-1) = Ok a.
Proof.
  intros H. apply (iloc_from_end s 1 a); [lia | exact H |].
  destruct s; [discriminate | cbn [List.length]; lia].
Qed.

Lemma iloc_before_last {A : Type} (s : list A) (a : A) :
  (2 <= List.length s)%nat ->
  nth_error s (List.length s - 2) = Some a -> iloc s (-2) = Ok a.
Proof.
  intros Hlen H. apply (iloc_from_end s 2 a); [lia | exact H | exact Hlen].
Qed.

(** ** The normalizing statements *)

(** With fewer than two bars the statements raise [IndexError]. *)
Lemma normalize_short (df : DataFrame) :
  (List.length df < 2)%nat -> normalize df = Raise IndexError.
Proof.
  intros Hlen. unfold normalize. cbv zeta.
  destruct df as [|r1 [|r2 rest]]; [reflexivity | reflexivity |].
  cbn [List.length] in Hlen. lia.
Qed.

(** With two bars or more they return the chart frame, the close and the
    volume of the last bar, and the change from the bar before it. *)
Lemma normalize_ok (df : DataFrame) :
  (2 <= List.length df)%nat ->
  exists before last_row,
    nth_error df (List.length df - 2) = Some before /\
    nth_error df (List.length df - 1) = Some last_row /\
    normalize df =
    Ok (make_chart_data df, Close last_row, Volume last_row,
        np_mul (np_truediv (Close last_row - Close before)%Q (Close before))
               100).
Proof.
  intros Hlen.
  destruct (nth_error df (List.length df - 2)) as [before|] eqn:E2;
    [| apply nth_error_None in E2; lia].
  destruct (nth_error df (List.length df - 1)) as [last_row|] eqn:E1;
    [| apply nth_error_None in E1; lia].
  exists before, last_row. split; [reflexivity | split; [reflexivity |]].
  unfold normalize. cbv zeta.
  rewrite (iloc_last (map Close df) (Close last_row))
    by (rewrite length_map, nth_error_map, E1; reflexivity).
  cbn [result_bind].
  rewrite (iloc_before_last (map Close df) (Close before))
    by (rewrite ?length_map, ?nth_error_map, ?E2; solve [lia | reflexivity]).
  cbn [result_bind].
  rewrite (iloc_last (map Volume df) (Volume last_row))
    by (rewrite length_map, nth_error_map, E1; reflexivity).
  reflexivity.
Qed.

(** ** The paths through the assembler *)

Section Assembler.

Variable download : string -> Py DataFrame.
Variable now : datetime.
Variable symbol : string.
Variables out out1 : stdout.

Let ticker : string := (symbol ++ ".NS")%string.

Hypothesis clock : clock_ok now.

(** The fetch raises: the handler prints the error and returns the
    five [None]. *)
Lemma load_fetch_raises (e : Exception) :
  download ticker out = (out1, Raise e) ->
  load_chart_data download now symbol out =
  (out1 ++ [error_line e], Ok no_data).
Proof.
  intros Hd. destruct (clock_sub_days_60 now clock) as (d60 & H60).
  unfold load_chart_data, try_except, bind, lift. rewrite H60.
  fold ticker. rewrite Hd. reflexivity.
Qed.

(** The fetch returns no rows: the five [None], nothing printed. *)
Lemma load_fetch_empty :
  download ticker out = (out1, Ok []) ->
  load_chart_data download now symbol out = (out1, Ok no_data).
Proof.
  intros Hd. destruct (clock_sub_days_60 now clock) as (d60 & H60).
  unfold load_chart_data, try_except, bind, lift. rewrite H60.
  fold ticker. rewrite Hd. reflexivity.
Qed.

(** The fetch returns rows and the normalizing statements raise. *)
Lemma load_normalize_raises (df : DataFrame) (e : Exception) :
  download ticker out = (out1, Ok df) -> df <> [] ->
  normalize df = Raise e ->
  load_chart_data download now symbol out =
  (out1 ++ [error_line e], Ok no_data).
Proof.
  intros Hd Hne Hn. destruct (clock_sub_days_60 now clock) as (d60 & H60).
  destruct (prev_month_of_calendar now (proj1 clock)
              (clock_not_first_month now clock)) as (d & Hpm & _).
  unfold load_chart_data, try_except, bind, lift. rewrite H60.
  fold ticker. rewrite Hd.
  destruct df as [|r rest]; [congruence |]. cbn [empty negb].
  rewrite Hpm, Hn. reflexivity.
Qed.

(** The fetch returns rows and the normalizing statements succeed. *)
Lemma load_bundle (df : DataFrame) (chart_data : list ChartPoint)
    (current_price : Q) (vol : Z) (daily_change : np_float) :
  download ticker out = (out1, Ok df) -> df <> [] ->
  normalize df = Ok (chart_data, current_price, vol, daily_change) ->
  exists prev_month,
    prev_month_of now = Ok prev_month /\
    load_chart_data download now symbol out =
    (out1, Ok (Some chart_data, Some current_price, Some vol,
               Some daily_change,
               monthly_pivot_points (select_month prev_month df))).
Proof.
  intros Hd Hne Hn. destruct (clock_sub_days_60 now clock) as (d60 & H60).
  destruct (prev_month_of_calendar now (proj1 clock)
              (clock_not_first_month now clock)) as (d & Hpm & _).
  exists (strftime_Y_m d). split; [exact Hpm |].
  unfold load_chart_data, try_except, bind, lift. rewrite H60.
  fold ticker. rewrite Hd.
  destruct df as [|r rest]; [congruence |]. cbn [empty negb].
  rewrite Hpm, Hn. reflexivity.
Qed.

End Assembler.

(** Whatever the fetch does and whatever the clock shows, the assembler
    returns: either the five [None] or five values. *)
Lemma load_chart_data_returns (download : string -> Py DataFrame)
    (now : datetime) (symbol : string) (out : stdout) :
  exists out' b,
    load_chart_data download now symbol out = (out', Ok b) /\
    (b = no_data \/
     exists chart_data current_price vol daily_change pivot_points,
       b = (Some chart_data, Some current_price, Some vol,
            Some daily_change, pivot_points)).
Proof.
  unfold load_chart_data, try_except, bind, lift, print, ret.
  destruct (sub_days now 60) as [d60 | e];
    [| eexists _, _; split; [reflexivity | left; reflexivity]].
  destruct (download (symbol ++ ".NS")%string out) as [o [df | e]];
    [| eexists _, _; split; [reflexivity | left; reflexivity]].
  destruct df as [|r rest]; cbn [empty negb];
    [eexists _, _; split; [reflexivity | left; reflexivity] |].
  destruct (prev_month_of now) as [pm | e];
    [| eexists _, _; split; [reflexivity | left; reflexivity]].
  destruct (normalize (r :: rest)) as [[[[cd cp] v] dc] | e];
    [| eexists _, _; split; [reflexivity | left; reflexivity]].
  eexists _, _; split; [reflexivity | right].
  eexists _, _, _, _, _. reflexivity.
Qed.

(** ** Failures *)

(** C4: for a fetched series of no bar or of one bar the normalizing
    statements raise, they return no partial result, and the assembler
    returns the five [None]. *)
Theorem insufficient_data_no_chart (download : string -> Py DataFrame)
    (now : datetime) (symbol : string) (out out1 : stdout) (df : DataFrame) :
  download (symbol ++ ".NS")%string out = (out1, Ok df) ->
  (List.length df < 2)%nat ->
  normalize df = Raise IndexError /\
  exists out', load_chart_data download now symbol out = (out', Ok no_data).
Proof.
  intros Hd Hlen. split; [apply normalize_short; exact Hlen |].
  unfold load_chart_data, try_except, bind, lift, print, ret.
  destruct (sub_days now 60) as [d60 | e]; [| eexists; reflexivity].
  rewrite Hd.
  destruct df as [|r rest]; cbn [empty negb]; [eexists; reflexivity |].
  destruct (prev_month_of now) as [pm | e]; [| eexists; reflexivity].
  rewrite (normalize_short (r :: rest) Hlen). eexists; reflexivity.
Qed.

Lemma insufficient_data_no_chart_witness :
  normalize [sample_row (mkDate 2024 3 8) 15] = Raise IndexError /\
  exists out',
    load_chart_data (fetch_returns [sample_row (mkDate 2024 3 8) 15])
      sample_clock "TCS" [] = (out', Ok no_data).
Proof.
  apply (insufficient_data_no_chart
           (fetch_returns [sample_row (mkDate 2024 3 8) 15])
           sample_clock "TCS" [] []
           [sample_row (mkDate 2024 3 8) 15]).
  - reflexivity.
  - cbn [List.length]. lia.
Defined.

(** C10: a fetch that raises, a fetch that returns no bar and a fetch that
    returns one bar all end in the same value, the five [None]; the
    one-bar case gets there through the handler, as the raising fetch
    does, and prints the handler's line for an [IndexError]. *)
Theorem failures_indistinguishable (download : string -> Py DataFrame)
    (now : datetime) (symbol : string) (out out1 : stdout) :
  clock_ok now ->
  (forall e, download (symbol ++ ".NS")%string out = (out1, Raise e) ->
     load_chart_data download now symbol out =
     (out1 ++ [error_line e], Ok no_data)) /\
  (download (symbol ++ ".NS")%string out = (out1, Ok []) ->
     load_chart_data download now symbol out = (out1, Ok no_data)) /\
  (forall row, download (symbol ++ ".NS")%string out = (out1, Ok [row]) ->
     load_chart_data download now symbol out =
     (out1 ++ [error_line IndexError], Ok no_data)).
Proof.
  intros Hclock. split; [| split].
  - intros e Hd. apply load_fetch_raises; assumption.
  - intros Hd. apply load_fetch_empty; assumption.
  - intros row Hd.
    apply (load_normalize_raises download now symbol out out1 Hclock [row]).
    + exact Hd.
    + discriminate.
    + apply normalize_short. cbn [List.length]. lia.
Qed.

(** A fetch that raises ends in the five [None], whatever the clock. *)
Lemma load_fetch_raises_no_data (download : string -> Py DataFrame)
    (now : datetime) (symbol : string) (out out1 : stdout) (e : Exception) :
  download (symbol ++ ".NS")%string out = (out1, Raise e) ->
  exists out', load_chart_data download now symbol out = (out', Ok no_data).
Proof.
  intros Hd. unfold load_chart_data, try_except, bind, lift, print, ret.
  destruct (sub_days now 60) as [d60 | e']; [| eexists; reflexivity].
  rewrite Hd. eexists; reflexivity.
Qed.

(** ** The page *)

Lemma create_chart_returns (name : string) (b : Bundle) :
  (b = no_data \/
   exists chart_data current_price vol daily_change pivot_points,
     b = (Some chart_data, Some current_price, Some vol,
          Some daily_change, pivot_points)) ->
  exists c, create_chart name b = Ok c /\
            (c = None <-> b = no_data) /\
            (forall ch, c = Some ch -> chart_data_of b = Some (chart_series ch)).
Proof.
  intros [-> | (cd & cp & v & dc & pv & ->)].
  - exists None. split; [reflexivity |]. split; [tauto | discriminate].
  - eexists. split; [reflexivity |]. split.
    + split; discriminate.
    + intros ch [= <-]. reflexivity.
Qed.

Lemma show_chart_returns (download : string -> Py DataFrame)
    (now : datetime) (stock : string * string) (out : stdout) :
  exists out' b c,
    load_chart_data download now (fst stock) out = (out', Ok b) /\
    create_chart (snd stock) b = Ok c /\
    show_chart download now stock out = (out', Ok c).
Proof.
  destruct (load_chart_data_returns download now (fst stock) out)
    as (out' & b & Hl & Hb).
  destruct (create_chart_returns (snd stock) b Hb) as (c & Hc & _).
  exists out', b, c. split; [exact Hl | split; [exact Hc |]].
  unfold show_chart, bind, lift. rewrite Hl, Hc. reflexivity.
Qed.

Lemma list_pair_ind {A : Type} (Q : list A -> Prop) :
  Q [] -> (forall a, Q [a]) ->
  (forall a b l, Q l -> Q (a :: b :: l)) ->
  forall l, Q l.
Proof.
  intros H0 H1 H2 l.
  enough (H : Q l /\ forall a, Q (a :: l)) by apply H.
  induction l as [|x l [IH1 IH2]].
  - split; [exact H0 | exact H1].
  - split; [apply IH2 |]. intros a. apply H2. exact IH1.
Qed.

(** The page loop runs to its end and fills one slot for every stock. *)
Lemma page_loop_slots (download : string -> Py DataFrame) (now : datetime)
    (stocks : list (string * string)) :
  forall out, exists out' charts,
    page_loop download now stocks out = (out', Ok charts) /\
    Forall2 (slot_of download now) stocks charts.
Proof.
  induction stocks as [| first | first second rest IH] using list_pair_ind;
    intros out.
  - exists out, []. split; [reflexivity | constructor].
  - destruct (show_chart_returns download now first out)
      as (o1 & b1 & c1 & Hl1 & Hc1 & Hs1).
    exists o1, [c1]. split.
    + cbn [page_loop]. unfold bind, ret. rewrite Hs1. reflexivity.
    + constructor; [exists out, o1, b1; auto | constructor].
  - destruct (show_chart_returns download now first out)
      as (o1 & b1 & c1 & Hl1 & Hc1 & Hs1).
    destruct (show_chart_returns download now second o1)
      as (o2 & b2 & c2 & Hl2 & Hc2 & Hs2).
    destruct (IH o2) as (o3 & cs & Hrun & Hall).
    exists o3, (c1 :: c2 :: cs). split.
    + cbn [page_loop]. unfold bind, ret in *. rewrite Hs1, Hs2, Hrun.
      reflexivity.
    + constructor; [exists out, o1, b1; auto |].
      constructor; [exists o1, o2, b2; auto | exact Hall].
Qed.

Lemma Forall2_slot {A B : Type} (R : A -> B -> Prop) (l : list A) (l' : list B) :
  Forall2 R l l' ->
  forall i a, nth_error l i = Some a ->
  exists b, nth_error l' i = Some b /\ R a b.
Proof.
  induction 1 as [| x y l l' Hxy Hall IH]; intros i a Hi.
  - destruct i; discriminate.
  - destruct i as [|i]; cbn [nth_error] in *.
    + injection Hi as <-. exists y. split; [reflexivity | exact Hxy].
    + apply IH. exact Hi.
Qed.

(** A stock whose fetch returns two bars or more gets its chart. *)
Lemma slot_of_good_fetch (download : string -> Py DataFrame) (now : datetime)
    (stock : string * string) (df : DataFrame) (c : option Chart) :
  clock_ok now ->
  (forall o, exists o', download (fst stock ++ ".NS")%string o = (o', Ok df)) ->
  (2 <= List.length df)%nat ->
  slot_of download now stock c ->
  exists ch, c = Some ch /\ chart_series ch = make_chart_data df.
Proof.
  intros Hclock Hd Hlen (o & o' & b & Hl & Hc).
  destruct (Hd o) as (o1 & Hdo).
  destruct (normalize_ok df Hlen) as (before & last_row & _ & _ & Hn).
  assert (Hne : df <> []) by (destruct df; [cbn in Hlen; lia | discriminate]).
  destruct (load_bundle download now (fst stock) o o1 Hclock df _ _ _ _
              Hdo Hne Hn) as (pm & _ & Hl').
  rewrite Hl' in Hl. injection Hl as _ <-.
  cbn [create_chart] in Hc. injection Hc as <-.
  eexists. split; [reflexivity | reflexivity].
Qed.

(** C3: the assembler returns for every symbol, whatever the fetch does,
    and returns the five [None] when the fetch raises; the page loop
    therefore runs to its end with one slot per stock, and a stock whose
    fetch returns two bars or more has its chart in its slot whatever
    happens to the fetches of the other stocks. *)
Theorem fetch_failure_contained (download : string -> Py DataFrame)
    (now : datetime) :
  (forall symbol out, exists out' b,
     load_chart_data download now symbol out = (out', Ok b) /\
     (forall out1 e,
        download (symbol ++ ".NS")%string out = (out1, Raise e) ->
        b = no_data)) /\
  (forall stocks out, exists out' charts,
     page_loop download now stocks out = (out', Ok charts) /\
     List.length charts = List.length stocks /\
     (forall i stock df,
        nth_error stocks i = Some stock ->
        clock_ok now ->
        (forall o, exists o',
           download (fst stock ++ ".NS")%string o = (o', Ok df)) ->
        (2 <= List.length df)%nat ->
        exists ch, nth_error charts i = Some (Some ch) /\
                   chart_series ch = make_chart_data df)).
Proof.
  split.
  - intros symbol out.
    destruct (load_chart_data_returns download now symbol out)
      as (out' & b & Hl & _).
    exists out', b. split; [exact Hl |].
    intros out1 e Hd.
    destruct (load_fetch_raises_no_data download now symbol out out1 e Hd)
      as (out'' & Hl').
    rewrite Hl' in Hl. injection Hl as _ <-. reflexivity.
  - intros stocks out.
    destruct (page_loop_slots download now stocks out)
      as (out' & charts & Hrun & Hall).
    exists out', charts. split; [exact Hrun |].
    split; [symmetry; apply (Forall2_length Hall) |].
    intros i stock df Hi Hclock Hd Hlen.
    destruct (Forall2_slot _ _ _ Hall i stock Hi) as (c & Hc & Hslot).
    destruct (slot_of_good_fetch download now stock df c Hclock Hd Hlen Hslot)
      as (ch & -> & Hser).
    exists ch. split; [exact Hc | exact Hser].
Qed.

(** ** The previous month's bars *)

(** The rows the assembler keeps are the rows dated in the calendar month
    before the month of the clock. *)
Lemma select_month_calendar (now : datetime) (df : DataFrame) :
  clock_ok now -> dates_valid df ->
  exists prev_month,
    prev_month_of now = Ok prev_month /\
    select_month prev_month df =
    filter (fun row =>
              in_month (prev_calendar_month (year now) (month now)) (Date row))
           df.
Proof.
  intros Hclock Hrows.
  destruct (prev_month_of_calendar now (proj1 Hclock)
              (clock_not_first_month now Hclock)) as (d & Hpm & Hym & Hy & Hm).
  exists (strftime_Y_m d). split; [exact Hpm |].
  unfold select_month. apply filter_ext_in. intros row Hin.
  rewrite <- Hym.
  unfold dates_valid in Hrows. rewrite Forall_forall in Hrows.
  destruct (Hrows row Hin) as (Hry & Hrm & _).
  apply strftime_eqb_in_month; lia.
Qed.

Lemma Qmax_cases (x y : Q) :
  (Qmax x y = x /\ (y <= x)%Q) \/ (Qmax x y = y /\ (x <= y)%Q).
Proof.
  unfold Qmax, GenericMinMax.gmax.
  destruct (x ?= y)%Q eqn:E.
  - left. split; [reflexivity |]. apply Qeq_alt in E. rewrite E. apply Qle_refl.
  - right. split; [reflexivity |]. apply Qlt_alt in E. apply Qlt_le_weak, E.
  - left. split; [reflexivity |]. apply Qgt_alt in E. apply Qlt_le_weak, E.
Qed.

Lemma Qmin_cases (x y : Q) :
  (Qmin x y = x /\ (x <= y)%Q) \/ (Qmin x y = y /\ (y <= x)%Q).
Proof.
  unfold Qmin, GenericMinMax.gmin.
  destruct (x ?= y)%Q eqn:E.
  - left. split; [reflexivity |]. apply Qeq_alt in E. rewrite E. apply Qle_refl.
  - left. split; [reflexivity |]. apply Qlt_alt in E. apply Qlt_le_weak, E.
  - right. split; [reflexivity |]. apply Qgt_alt in E. apply Qlt_le_weak, E.
Qed.

Lemma series_max_is_max (xs : list Q) : forall x,
  is_max (series_max x xs) (x :: xs).
Proof.
  unfold series_max, is_max.
  induction xs as [|y ys IH]; intros x; cbn [fold_left].
  - split; [left; reflexivity |].
    intros z [<- | []]. apply Qle_refl.
  - destruct (IH (Qmax x y)) as [Hin Hub]. split.
    + destruct Hin as [Hm | Hin]; [| right; right; exact Hin].
      rewrite <- Hm.
      destruct (Qmax_cases x y) as [[E _] | [E _]]; rewrite E;
        [left | right; left]; reflexivity.
    + intros z [<- | [<- | Hz]].
      * apply Qle_trans with (Qmax x y); [| apply Hub; left; reflexivity].
        destruct (Qmax_cases x y) as [[E H] | [E H]]; rewrite E;
          [apply Qle_refl | exact H].
      * apply Qle_trans with (Qmax x y); [| apply Hub; left; reflexivity].
        destruct (Qmax_cases x y) as [[E H] | [E H]]; rewrite E;
          [exact H | apply Qle_refl].
      * apply Hub. right. exact Hz.
Qed.

Lemma series_min_is_min (xs : list Q) : forall x,
  is_min (series_min x xs) (x :: xs).
Proof.
  unfold series_min, is_min.
  induction xs as [|y ys IH]; intros x; cbn [fold_left].
  - split; [left; reflexivity |].
    intros z [<- | []]. apply Qle_refl.
  - destruct (IH (Qmin x y)) as [Hin Hlb]. split.
    + destruct Hin as [Hm | Hin]; [| right; right; exact Hin].
      rewrite <- Hm.
      destruct (Qmin_cases x y) as [[E _] | [E _]]; rewrite E;
        [left | right; left]; reflexivity.
    + intros z [<- | [<- | Hz]].
      * apply Qle_trans with (Qmin x y); [apply Hlb; left; reflexivity |].
        destruct (Qmin_cases x y) as [[E H] | [E H]]; rewrite E;
          [apply Qle_refl | exact H].
      * apply Qle_trans with (Qmin x y); [apply Hlb; left; reflexivity |].
        destruct (Qmin_cases x y) as [[E H] | [E H]]; rewrite E;
          [exact H | apply Qle_refl].
      * apply Hlb. right. exact Hz.
Qed.

Lemma date_le_refl (d : datetime) : date_le d d.
Proof. unfold date_le. lia. Qed.

Lemma ascending_filter (f : Row -> bool) (df : DataFrame) :
  ascending df -> ascending (filter f df).
Proof.
  unfold ascending. induction 1 as [| r rest Hs IH Hall]; cbn [filter].
  - constructor.
  - destruct (f r); [| exact IH].
    constructor; [exact IH |].
    rewrite Forall_forall in *. intros x Hx.
    apply filter_In in Hx. apply Hall, Hx.
Qed.

Lemma ascending_last (front : DataFrame) (last_row : Row) :
  ascending (front ++ [last_row]) ->
  forall r, In r (front ++ [last_row]) -> date_le (Date r) (Date last_row).
Proof.
  unfold ascending. induction front as [|x front IH]; cbn [app]; intros Hs r Hr.
  - destruct Hr as [<- | []]. apply date_le_refl.
  - inversion Hs as [| ? ? Hs' Hall]; subst.
    destruct Hr as [<- | Hr].
    + rewrite Forall_forall in Hall. apply Hall.
      apply in_or_app. right. left. reflexivity.
    + apply IH; assumption.
Qed.

(** What the pivot statement computes from a month's rows that are not
    empty. *)
Lemma monthly_pivot_points_some (rows : DataFrame) :
  rows <> [] ->
  exists h l front last_row,
    rows = front ++ [last_row] /\
    is_max h (map High rows) /\
    is_min l (map Low rows) /\
    monthly_pivot_points rows =
    Some (calculate_pivot_points h l (Close last_row)).
Proof.
  destruct rows as [|row rest]; [congruence | intros _].
  exists (series_max (High row) (map High rest)),
         (series_min (Low row) (map Low rest)),
         (removelast (row :: rest)), (last rest row).
  split.
  - rewrite (app_removelast_last row) at 1 by discriminate.
    f_equal. f_equal. cbn [last]. destruct rest; reflexivity.
  - split; [apply series_max_is_max |].
    split; [apply series_min_is_min | reflexivity].
Qed.


(** ** The chart series and the percent change *)

Lemma make_chart_data_series (df : DataFrame) :
  is_chart_series df (make_chart_data df).
Proof.
  split; [apply length_map |].
  intros i row H. unfold make_chart_data. rewrite nth_error_map, H.
  reflexivity.
Qed.

Lemma np_percent_change (current prev : Q) :
  is_percent_change current prev
    (np_mul (np_truediv (current - prev)%Q prev) 100).
Proof.
  unfold is_percent_change, np_truediv.
  destruct (Qeq_bool prev 0) eqn:Ep.
  - apply Qeq_bool_iff in Ep.
    destruct (Qeq_bool (current - prev) 0) eqn:Ec.
    + apply Qeq_bool_iff in Ec.
      repeat split; intros; try reflexivity; exfalso; lra.
    + apply Qeq_bool_neq in Ec.
      destruct (Qle_bool 0 (current - prev)) eqn:El.
      * apply Qle_bool_iff in El.
        repeat split; intros; try reflexivity; exfalso; lra.
      * assert (Hlt : ~ (0 <= current - prev)%Q)
          by (intros H; apply Qle_bool_iff in H; congruence).
        repeat split; intros; try reflexivity; exfalso; lra.
  - apply Qeq_bool_neq in Ep.
    repeat split; intros; try reflexivity; exfalso; lra.
Qed.

(** ** What the assembler returns *)

Lemma sample_clock_ok : clock_ok sample_clock.
Proof. unfold clock_ok, valid_date. vm_compute. intuition discriminate. Defined.

Lemma sample_frame_dates_valid : dates_valid sample_frame.
Proof.
  unfold dates_valid, sample_frame.
  repeat constructor; vm_compute; discriminate.
Defined.

Lemma march_frame_dates_valid : dates_valid march_frame.
Proof.
  unfold dates_valid, march_frame.
  repeat constructor; vm_compute; discriminate.
Defined.

Lemma filter_nothing {A : Type} (f : A -> bool) (l : list A) :
  (forall x, In x l -> f x = false) -> filter f l = [].
Proof.
  induction l as [|x l IH]; intros H; cbn [filter]; [reflexivity |].
  rewrite (H x (or_introl eq_refl)). apply IH.
  intros y Hy. apply H. right. exact Hy.
Qed.

Lemma two_bars_not_empty (df : DataFrame) :
  (2 <= List.length df)%nat -> df <> [].
Proof. destruct df; [cbn; lia | discriminate]. Qed.

(** With two bars or more and a clock that reads a date, the assembler
    returns five values: what the normalizing statements computed, and the
    pivots of the month's rows. *)
Lemma load_two_bars (download : string -> Py DataFrame) (now : datetime)
    (symbol : string) (out out1 : stdout) (df : DataFrame) :
  clock_ok now ->
  download (symbol ++ ".NS")%string out = (out1, Ok df) ->
  (2 <= List.length df)%nat ->
  exists before last_row prev_month,
    nth_error df (List.length df - 2) = Some before /\
    nth_error df (List.length df - 1) = Some last_row /\
    prev_month_of now = Ok prev_month /\
    load_chart_data download now symbol out =
    (out1, Ok (Some (make_chart_data df), Some (Close last_row),
               Some (Volume last_row),
               Some (np_mul (np_truediv (Close last_row - Close before)%Q
                                        (Close before)) 100),
               monthly_pivot_points (select_month prev_month df))).
Proof.
  intros Hclock Hd Hlen.
  destruct (normalize_ok df Hlen) as (before & last_row & H2 & H1 & Hn).
  destruct (load_bundle download now symbol out out1 Hclock df _ _ _ _
              Hd (two_bars_not_empty df Hlen) Hn) as (pm & Hpm & Hl).
  exists before, last_row, pm. auto.
Qed.

(** C2: the rows the assembler keeps are exactly the rows dated in the
    calendar month before the month of the clock (December of the year
    before when the clock is in January); when there are such rows, the
    pivot levels are those the calculator returns for the greatest High,
    the least Low and the Close of the last of them, which is the latest
    by date when the fetched series is in ascending order of date; and
    these are the pivots of the returned bundle. *)
Theorem previous_month_pivots (download : string -> Py DataFrame)
    (now : datetime) (symbol : string) (out out1 : stdout) (df : DataFrame) :
  clock_ok now -> dates_valid df ->
  download (symbol ++ ".NS")%string out = (out1, Ok df) ->
  let subset :=
    filter (fun row =>
              in_month (prev_calendar_month (year now) (month now)) (Date row))
           df in
  exists prev_month,
    prev_month_of now = Ok prev_month /\
    select_month prev_month df = subset /\
    (subset <> [] ->
     exists h l front last_row,
       subset = front ++ [last_row] /\
       is_max h (map High subset) /\
       is_min l (map Low subset) /\
       (ascending df ->
        forall r, In r subset -> date_le (Date r) (Date last_row)) /\
       monthly_pivot_points (select_month prev_month df) =
       Some (calculate_pivot_points h l (Close last_row))) /\
    ((2 <= List.length df)%nat ->
     exists chart_data current_price vol daily_change,
       load_chart_data download now symbol out =
       (out1, Ok (Some chart_data, Some current_price, Some vol,
                  Some daily_change,
                  monthly_pivot_points (select_month prev_month df)))).
Proof.
  intros Hclock Hrows Hd subset.
  destruct (select_month_calendar now df Hclock Hrows) as (pm & Hpm & Hsel).
  fold subset in Hsel.
  exists pm. split; [exact Hpm |]. split; [exact Hsel |]. split.
  - intros Hne. rewrite Hsel.
    destruct (monthly_pivot_points_some subset Hne)
      as (h & l & front & last_row & Hsplit & Hmax & Hmin & Hpiv).
    exists h, l, front, last_row.
    repeat split; try assumption; try apply Hmax; try apply Hmin.
    intros Hasc r Hr. apply (ascending_last front last_row).
    + rewrite <- Hsplit. apply ascending_filter. exact Hasc.
    + rewrite <- Hsplit. exact Hr.
  - intros Hlen.
    destruct (load_two_bars download now symbol out out1 df Hclock Hd Hlen)
      as (before & last_row & pm' & _ & _ & Hpm' & Hl).
    rewrite Hpm in Hpm'. injection Hpm' as <-.
    eexists _, _, _, _. exact Hl.
Qed.

Lemma previous_month_pivots_witness :
  exists prev_month,
    prev_month_of sample_clock = Ok prev_month /\
    select_month prev_month sample_frame =
    [ mkRow (mkDate 2024 2 1) 11 13 10 12 200;
      mkRow (mkDate 2024 2 29) 12 15 11 14 300 ].
Proof.
  destruct (previous_month_pivots (fetch_returns sample_frame) sample_clock
              "TCS" [] [] sample_frame sample_clock_ok
              sample_frame_dates_valid eq_refl)
    as (prev_month & Hpm & Hsel & _).
  exists prev_month. split; [exact Hpm | exact Hsel].
Defined.

(** The example of the specification: today is 2024-03-10, the bars of
    2024-02 are kept, and the pivots come from High 15, Low 10 and the
    Close 14 of 2024-02-29. *)
Example month_partition_example :
  prev_month_of sample_clock = Ok "2024-02"%string /\
  select_month "2024-02" sample_frame =
  [ mkRow (mkDate 2024 2 1) 11 13 10 12 200;
    mkRow (mkDate 2024 2 29) 12 15 11 14 300 ] /\
  monthly_pivot_points (select_month "2024-02" sample_frame) =
  Some (calculate_pivot_points 15 10 14) /\
  prev_month_of (mkDate 2025 1 15) = Ok "2024-12"%string.
Proof. vm_compute. auto. Qed.

(** C5: with two bars or more and no bar dated in the previous calendar
    month, the assembler returns a bundle without pivots whose chart
    series, latest price, latest volume and percent change come from the
    whole fetched series: the series has a row for every fetched bar, the
    price and the volume are those of the last bar, and the change is
    that from the bar before it; nothing is printed. *)
Theorem no_prior_month_bundle (download : string -> Py DataFrame)
    (now : datetime) (symbol : string) (out out1 : stdout) (df : DataFrame) :
  clock_ok now -> dates_valid df ->
  download (symbol ++ ".NS")%string out = (out1, Ok df) ->
  (2 <= List.length df)%nat ->
  (forall row, In row df ->
     in_month (prev_calendar_month (year now) (month now)) (Date row) = false) ->
  exists b series before last_row change,
    load_chart_data download now symbol out = (out1, Ok b) /\
    chart_data_of b = Some series /\
    is_chart_series df series /\
    nth_error df (List.length df - 2) = Some before /\
    nth_error df (List.length df - 1) = Some last_row /\
    current_price_of b = Some (Close last_row) /\
    volume_of b = Some (Volume last_row) /\
    daily_change_of b = Some change /\
    is_percent_change (Close last_row) (Close before) change /\
    pivot_points_of b = None.
Proof.
  intros Hclock Hrows Hd Hlen Hnone.
  destruct (load_two_bars download now symbol out out1 df Hclock Hd Hlen)
    as (before & last_row & pm & H2 & H1 & Hpm & Hl).
  destruct (select_month_calendar now df Hclock Hrows) as (pm' & Hpm' & Hsel).
  rewrite Hpm in Hpm'. injection Hpm' as <-.
  rewrite (filter_nothing _ df Hnone) in Hsel. rewrite Hsel in Hl.
  eexists _, (make_chart_data df), before, last_row, _.
  split; [exact Hl |]. split; [reflexivity |].
  split; [apply make_chart_data_series |].
  split; [exact H2 |]. split; [exact H1 |].
  split; [reflexivity |]. split; [reflexivity |]. split; [reflexivity |].
  split; [apply np_percent_change | reflexivity].
Qed.

Lemma no_prior_month_bundle_witness :
  exists b series,
    load_chart_data (fetch_returns march_frame) sample_clock "TCS" [] =
    ([], Ok b) /\
    chart_data_of b = Some series /\
    is_chart_series march_frame series /\
    current_price_of b = Some 15%Q /\
    volume_of b = Some 400 /\
    daily_change_of b = Some (Finite ((15 - 14) / 14 * 100)%Q) /\
    pivot_points_of b = None.
Proof.
  destruct (no_prior_month_bundle (fetch_returns march_frame) sample_clock
              "TCS" [] [] march_frame sample_clock_ok
              march_frame_dates_valid eq_refl)
    as (b & series & before & last_row & change & Hl & Hs & Hser & H2 & H1
        & Hp & Hv & Hc & Hchange & Hpiv).
  - cbn [List.length march_frame]. lia.
  - intros row [<- | [<- | []]]; reflexivity.
  - injection H2 as <-. injection H1 as <-.
    exists b, series. repeat (split; [assumption |]).
    split; [| exact Hpiv]. rewrite Hc. f_equal.
    apply (proj1 Hchange). vm_compute. discriminate.
Defined.

(** ** Percent change *)

Lemma percent_change_sign (current_price prev_price : Q) :
  (0 < prev_price)%Q ->
  (0 <= (current_price - prev_price) / prev_price * 100 <->
   prev_price <= current_price)%Q.
Proof.
  intros Hpos.
  assert (Hne : ~ (prev_price == 0)%Q) by lra.
  set (q := ((current_price - prev_price) / prev_price)%Q).
  assert (Hq : (q * prev_price == current_price - prev_price)%Q)
    by (unfold q; field; exact Hne).
  split; intros H.
  - assert (H0 : (0 <= q)%Q) by lra.
    pose proof (Qmult_le_0_compat q prev_price H0 (Qlt_le_weak _ _ Hpos)). lra.
  - assert (H0 : (0 <= q)%Q).
    { unfold q, Qdiv. apply Qmult_le_0_compat; [lra |].
      apply Qinv_le_0_compat. lra. }
    lra.
Qed.

(** C6, as stated, fails: for two bars that both close at zero the
    assembler returns NaN as percent change, which is not at least zero,
    although the last close is not below the close before it. *)
Lemma percent_change_zero_base :
  exists change,
    (2 <= List.length zero_frame)%nat /\
    snd (load_chart_data (fetch_returns zero_frame) sample_clock "TCS" []) =
    Ok (Some (make_chart_data zero_frame), Some 0%Q, Some 1000,
        Some change, None) /\
    change = NaN /\
    ~ (np_ge change 0 = true <-> (0 <= 0)%Q).
Proof.
  eexists. split; [cbn; lia |]. split; [vm_compute; reflexivity |].
  split; [reflexivity |].
  intros [_ H]. assert (H0 : (0 <= 0)%Q) by apply Qle_refl.
  specialize (H H0). discriminate.
Qed.

(** C6, amended: with two bars or more and a positive close on the bar
    before the last, the percent change is
    (last close - close before) / close before * 100, and it is at least
    zero exactly when the last close is at least the close before. *)
Theorem percent_change_of_last_two (download : string -> Py DataFrame)
    (now : datetime) (symbol : string) (out out1 : stdout) (df : DataFrame) :
  clock_ok now ->
  download (symbol ++ ".NS")%string out = (out1, Ok df) ->
  (2 <= List.length df)%nat ->
  exists before last_row b change,
    nth_error df (List.length df - 2) = Some before /\
    nth_error df (List.length df - 1) = Some last_row /\
    load_chart_data download now symbol out = (out1, Ok b) /\
    daily_change_of b = Some change /\
    ((0 < Close before)%Q ->
     change =
       Finite ((Close last_row - Close before) / Close before * 100)%Q /\
     (np_ge change 0 = true <-> (Close before <= Close last_row)%Q) /\
     ((0 <= (Close last_row - Close before) / Close before * 100)%Q <->
      (Close before <= Close last_row)%Q)).
Proof.
  intros Hclock Hd Hlen.
  destruct (load_two_bars download now symbol out out1 df Hclock Hd Hlen)
    as (before & last_row & pm & H2 & H1 & _ & Hl).
  eexists before, last_row, _, _.
  split; [exact H2 |]. split; [exact H1 |]. split; [exact Hl |].
  split; [reflexivity |].
  intros Hpos.
  assert (Hne : ~ (Close before == 0)%Q) by lra.
  rewrite (proj1 (np_percent_change (Close last_row) (Close before)) Hne).
  split; [reflexivity |]. cbn [np_ge]. rewrite Qle_bool_iff.
  split; apply percent_change_sign; exact Hpos.
Qed.

Lemma percent_change_of_last_two_witness :
  exists b change,
    load_chart_data (fetch_returns sample_frame) sample_clock "TCS" [] =
    ([], Ok b) /\
    daily_change_of b = Some change /\
    change = Finite ((15 - 14) / 14 * 100)%Q /\
    (np_ge change 0 = true <-> (14 <= 15)%Q).
Proof.
  destruct (percent_change_of_last_two (fetch_returns sample_frame)
              sample_clock "TCS" [] [] sample_frame sample_clock_ok eq_refl)
    as (before & last_row & b & change & H2 & H1 & Hl & Hdc & Hfacts).
  - cbn [List.length sample_frame]. lia.
  - injection H2 as <-. injection H1 as <-.
    destruct Hfacts as (Hval & Hge & _); [vm_compute; reflexivity |].
    exists b, change. auto.
Defined.

(** ** The chart series *)

Lemma make_chart_data_nth (df : DataFrame) (i : nat) (row : Row) :
  nth_error df i = Some row ->
  nth_error (make_chart_data df) i =
  Some {| time := strftime_Y_m_d (Date row);
          open := Open row; high := High row; low := Low row;
          close := Close row; volume := Volume row |}.
Proof.
  intros H. unfold make_chart_data. rewrite nth_error_map, H. reflexivity.
Qed.

(** C7, as stated, fails: a series of one bar is not empty, yet the
    normalizing statements raise on it and the assembler returns no chart
    series for it, and no latest price or volume. *)
Lemma single_bar_no_series :
  [sample_row (mkDate 2024 3 8) 15] <> [] /\
  normalize [sample_row (mkDate 2024 3 8) 15] = Raise IndexError /\
  exists out' b,
    load_chart_data (fetch_returns [sample_row (mkDate 2024 3 8) 15])
      sample_clock "TCS" [] = (out', Ok b) /\
    chart_data_of b = None /\ current_price_of b = None /\
    volume_of b = None /\
    ~ (exists series,
         chart_data_of b = Some series /\
         List.length series =
         List.length [sample_row (mkDate 2024 3 8) 15]).
Proof.
  split; [discriminate |]. split; [reflexivity |].
  eexists _, _. split; [vm_compute; reflexivity |].
  repeat split. intros (series & H & _). discriminate.
Qed.

(** C7, amended: with two bars or more the returned chart series has the
    length of the fetched series, its entry at each position is made from
    the bar at that position, and the latest price and latest volume are
    the close and the volume of the last bar. *)
Theorem chart_series_index_for_index (download : string -> Py DataFrame)
    (now : datetime) (symbol : string) (out out1 : stdout) (df : DataFrame) :
  clock_ok now ->
  download (symbol ++ ".NS")%string out = (out1, Ok df) ->
  (2 <= List.length df)%nat ->
  exists b series last_row,
    load_chart_data download now symbol out = (out1, Ok b) /\
    chart_data_of b = Some series /\
    List.length series = List.length df /\
    (forall i row,
       nth_error df i = Some row ->
       nth_error series i =
       Some {| time := strftime_Y_m_d (Date row);
               open := Open row; high := High row; low := Low row;
               close := Close row; volume := Volume row |}) /\
    nth_error df (List.length df - 1) = Some last_row /\
    current_price_of b = Some (Close last_row) /\
    volume_of b = Some (Volume last_row).
Proof.
  intros Hclock Hd Hlen.
  destruct (load_two_bars download now symbol out out1 df Hclock Hd Hlen)
    as (before & last_row & pm & H2 & H1 & _ & Hl).
  eexists _, (make_chart_data df), last_row.
  split; [exact Hl |]. split; [reflexivity |].
  split; [apply length_map |].
  split; [intros i row; apply make_chart_data_nth |].
  split; [exact H1 |]. split; reflexivity.
Qed.

Lemma chart_series_index_for_index_witness :
  exists b series,
    load_chart_data (fetch_returns sample_frame) sample_clock "TCS" [] =
    ([], Ok b) /\
    chart_data_of b = Some series /\
    List.length series = 4%nat /\
    current_price_of b = Some 15%Q /\
    volume_of b = Some 400.
Proof.
  destruct (chart_series_index_for_index (fetch_returns sample_frame)
              sample_clock "TCS" [] [] sample_frame sample_clock_ok eq_refl)
    as (b & series & last_row & Hl & Hs & Hlen & _ & H1 & Hp & Hv).
  - cbn [List.length sample_frame]. lia.
  - injection H1 as <-. exists b, series. auto.
Defined.

(** Within sixty days of 0001-01-01 the first statement of the assembler
    raises [OverflowError], which the handler turns into the five
    [None]. *)
Remark clock_too_early :
  load_chart_data (fetch_returns sample_frame) (mkDate 1 1 10) "TCS" [] =
  ([error_line OverflowError], Ok no_data).
Proof. vm_compute. reflexivity. Qed.

(** ** Witnesses of the failure properties *)

Lemma failures_indistinguishable_witness :
  load_chart_data (fetch_raises ConnectionError) sample_clock "TCS" [] =
  ([error_line ConnectionError], Ok no_data) /\
  load_chart_data (fetch_returns []) sample_clock "TCS" [] =
  ([], Ok no_data) /\
  load_chart_data (fetch_returns [sample_row (mkDate 2024 3 8) 15])
    sample_clock "TCS" [] =
  ([error_line IndexError], Ok no_data).
Proof.
  split; [| split].
  - exact (proj1 (failures_indistinguishable (fetch_raises ConnectionError)
                    sample_clock "TCS" [] [] sample_clock_ok)
             ConnectionError eq_refl).
  - exact (proj1 (proj2 (failures_indistinguishable (fetch_returns [])
                           sample_clock "TCS" [] [] sample_clock_ok))
             eq_refl).
  - exact (proj2 (proj2 (failures_indistinguishable
                           (fetch_returns [sample_row (mkDate 2024 3 8) 15])
                           sample_clock "TCS" [] [] sample_clock_ok))
             (sample_row (mkDate 2024 3 8) 15) eq_refl).
Defined.

Lemma fetch_failure_contained_witness :
  exists out' charts ch,
    page_loop fetch_fails_for_B sample_clock
      [("A", "Alpha"); ("B", "Beta"); ("C", "Gamma")]%string [] =
    (out', Ok charts) /\
    List.length charts = 3%nat /\
    nth_error charts 2 = Some (Some ch) /\
    chart_series ch = make_chart_data sample_frame.
Proof.
  destruct (proj2 (fetch_failure_contained fetch_fails_for_B sample_clock)
              [("A", "Alpha"); ("B", "Beta"); ("C", "Gamma")]%string [])
    as (out' & charts & Hrun & Hlen & Hslots).
  destruct (Hslots 2%nat ("C", "Gamma")%string sample_frame eq_refl
              sample_clock_ok (fun o => ex_intro _ o eq_refl))
    as (ch & Hc & Hser).
  - cbn [List.length sample_frame]. lia.
  - exists out', charts, ch. auto.
Defined.

(** The page with a failing fetch for B: the slots of A and C hold their
    charts, the slot of B is skipped, and one error line is printed. *)
Example page_with_failing_symbol :
  exists ca cc,
    page_loop fetch_fails_for_B sample_clock
      [("A", "Alpha"); ("B", "Beta"); ("C", "Gamma")]%string [] =
    ([error_line ConnectionError], Ok [Some ca; None; Some cc]) /\
    chart_series ca = make_chart_data sample_frame /\
    chart_series cc = make_chart_data sample_frame.
Proof. eexists _, _. vm_compute. auto. Qed.

(** * Further properties of the code *)

(** ** The pivot calculator *)

Lemma round_half_even_compat (x y : Q) :
  (x == y)%Q -> round_half_even x = round_half_even y.
Proof.
  intros E. apply Z.le_antisymm; apply round_half_even_mono;
    rewrite E; apply Qle_refl.
Qed.

Lemma py_round_compat (x y : Q) :
  (x == y)%Q -> py_round x 2 = py_round y 2.
Proof.
  intros E. unfold py_round.
  rewrite (round_half_even_compat (x * (Zpos (Z.to_pos (10 ^ Z.of_N 2)) # 1))
             (y * (Zpos (Z.to_pos (10 ^ Z.of_N 2)) # 1)))
    by (rewrite E; reflexivity).
  reflexivity.
Qed.


(** A price that is a whole number of hundredths is left as it is. *)
Lemma py_round_hundredth (k : Z) : (py_round (k # 100) 2 == k # 100)%Q.
Proof.
  apply (rounded_2dp_unique (k # 100)); [apply py_round_rounded |].
  exists k. split; [reflexivity |]. split; [lra |]. split; [lra |].
  intros [E | E]; exfalso; lra.
Qed.

(** X1: a higher close never lowers a level: each of the seven levels is
    monotone in the close. *)
Theorem pivot_levels_monotone_in_close (h l c c' : Q) :
  (c <= c')%Q ->
  let a := calculate_pivot_points h l c in
  let b := calculate_pivot_points h l c' in
  (P a <= P b /\ R1 a <= R1 b /\ R2 a <= R2 b /\ R3 a <= R3 b /\
   S1 a <= S1 b /\ S2 a <= S2 b /\ S3 a <= S3 b)%Q.
Proof.
  intros Hc. cbv zeta.
  pose proof (pivot_times_3 h l c) as Hp.
  pose proof (pivot_times_3 h l c') as Hp'.
  unfold calculate_pivot_points; cbn [P R1 R2 R3 S1 S2 S3].
  set (p := ((h + l + c) / 3)%Q) in *.
  set (p' := ((h + l + c') / 3)%Q) in *.
  repeat split; apply py_round_mono; lra.
Qed.

Lemma pivot_levels_monotone_in_close_witness :
  (P (calculate_pivot_points 110 100 105) <=
   P (calculate_pivot_points 110 100 108))%Q.
Proof.
  assert (H : (105 <= 108)%Q) by (vm_compute; discriminate).
  exact (proj1 (pivot_levels_monotone_in_close 110 100 105 108 H)).
Defined.

(** X2: for a month whose high, low and close are the same price, a
    whole number of hundredths, all seven levels are that price. *)
Theorem pivot_levels_flat_month (x : Q) (k : Z) :
  (x == k # 100)%Q ->
  let lv := calculate_pivot_points x x x in
  (P lv == x /\ R1 lv == x /\ R2 lv == x /\ R3 lv == x /\
   S1 lv == x /\ S2 lv == x /\ S3 lv == x)%Q.
Proof.
  intros E. cbv zeta.
  pose proof (pivot_times_3 x x x) as Hp.
  unfold calculate_pivot_points; cbn [P R1 R2 R3 S1 S2 S3].
  set (p := ((x + x + x) / 3)%Q) in *.
  assert (Ep : (p == x)%Q) by lra.
  assert (Hx : (py_round x 2 == x)%Q).
  { rewrite (py_round_compat x (k # 100) E), E. apply py_round_hundredth. }
  repeat split;
    (rewrite (py_round_compat _ x); [exact Hx | lra]).
Qed.

Lemma pivot_levels_flat_month_witness :
  (P (calculate_pivot_points (10500 # 100) (10500 # 100) (10500 # 100))
   == 10500 # 100)%Q.
Proof.
  exact (proj1 (pivot_levels_flat_month (10500 # 100) 10500 (Qeq_refl _))).
Defined.

(** The same on binary64: for every price from 0.00 to 2000.00 in steps
    of a hundredth, taken as high, low and close, the code returns that
    price for all seven levels. *)
Remark binary64_flat_month_hundredths :
  Binary64.for_all_below Binary64.flat_month_kept 200001 = true.
Proof. vm_compute. reflexivity. Qed.


(** ** The assembler *)

Lemma in_month_filter_empty (ym : Z * Z) (df : DataFrame) :
  filter (fun row => in_month ym (Date row)) df = [] <->
  (forall row, In row df -> in_month ym (Date row) = false).
Proof.
  split.
  - intros Hf row Hin.
    destruct (in_month ym (Date row)) eqn:E; [| reflexivity].
    assert (Hx : In row (filter (fun row => in_month ym (Date row)) df))
      by (apply filter_In; split; assumption).
    rewrite Hf in Hx. destruct Hx.
  - apply filter_nothing.
Qed.

Lemma monthly_pivot_points_none (rows : DataFrame) :
  monthly_pivot_points rows = None <-> rows = [].
Proof.
  destruct rows as [|r rest]; cbn [monthly_pivot_points].
  - split; reflexivity.
  - split; discriminate.
Qed.



(** X5: with two bars or more, the returned bundle has no pivots exactly
    when no bar is dated in the previous calendar month. *)
Theorem bundle_pivots_absent_iff (download : string -> Py DataFrame)
    (now : datetime) (symbol : string) (out out1 : stdout) (df : DataFrame) :
  clock_ok now -> dates_valid df ->
  download (symbol ++ ".NS")%string out = (out1, Ok df) ->
  (2 <= List.length df)%nat ->
  exists b,
    load_chart_data download now symbol out = (out1, Ok b) /\
    (pivot_points_of b = None <->
     forall row, In row df ->
       in_month (prev_calendar_month (year now) (month now)) (Date row)
       = false).
Proof.
  intros Hclock Hrows Hd Hlen.
  destruct (load_two_bars download now symbol out out1 df Hclock Hd Hlen)
    as (before & last_row & pm & _ & _ & Hpm & Hl).
  destruct (select_month_calendar now df Hclock Hrows) as (pm' & Hpm' & Hsel).
  rewrite Hpm in Hpm'. injection Hpm' as <-.
  eexists. split; [exact Hl |]. cbn [pivot_points_of].
  rewrite monthly_pivot_points_none, Hsel. apply in_month_filter_empty.
Qed.

Lemma bundle_pivots_absent_iff_witness :
  exists b,
    load_chart_data (fetch_returns march_frame) sample_clock "TCS" [] =
    ([], Ok b) /\ pivot_points_of b = None.
Proof.
  destruct (bundle_pivots_absent_iff (fetch_returns march_frame) sample_clock
              "TCS" [] [] march_frame sample_clock_ok march_frame_dates_valid
              eq_refl)
    as (b & Hl & Hiff).
  - cbn [List.length march_frame]. lia.
  - exists b. split; [exact Hl |]. apply Hiff.
    intros row [<- | [<- | []]]; reflexivity.
Defined.

(** X6: the bars the pivots are computed from are all dated before the
    month of the clock: no bar of the running month enters the pivots. *)
Theorem pivot_rows_before_current_month (now : datetime) (df : DataFrame) :
  clock_ok now -> dates_valid df ->
  exists prev_month,
    prev_month_of now = Ok prev_month /\
    forall row, In row (select_month prev_month df) ->
      year (Date row) < year now \/
      (year (Date row) = year now /\ month (Date row) < month now).
Proof.
  intros Hclock Hrows.
  destruct (select_month_calendar now df Hclock Hrows) as (pm & Hpm & Hsel).
  exists pm. split; [exact Hpm |]. intros row Hin.
  rewrite Hsel in Hin. apply filter_In in Hin. destruct Hin as [_ Hin].
  unfold in_month, prev_calendar_month in Hin.
  destruct (month now =? 1); cbn [fst snd] in Hin;
    apply andb_prop in Hin; destruct Hin as [Hy Hm];
    apply Z.eqb_eq in Hy, Hm; lia.
Qed.

Lemma pivot_rows_before_current_month_witness :
  exists prev_month,
    prev_month_of sample_clock = Ok prev_month /\
    forall row, In row (select_month prev_month sample_frame) ->
      year (Date row) < 2024 \/
      (year (Date row) = 2024 /\ month (Date row) < 3).
Proof.
  exact (pivot_rows_before_current_month sample_clock sample_frame
           sample_clock_ok sample_frame_dates_valid).
Defined.

(** ** The first dates of the calendar *)

Lemma days_before_year_from_2 (y : Z) : 2 <= y -> 365 <= days_before_year y.
Proof.
  intros Hy. unfold days_before_year. cbv zeta.
  Z.div_mod_to_equations. lia.
Qed.

Lemma days_before_month_from_2 (y m : Z) :
  2 <= m -> 28 <= days_before_month y m.
Proof.
  intros Hm.
  pose proof (days_before_month_succ y (m - 1) ltac:(lia)) as Hs.
  replace (m - 1 + 1) with m in Hs by lia.
  pose proof (days_in_month_bounds y (m - 1)).
  assert (H0 : 0 <= days_before_month y (m - 1)).
  { unfold days_before_month.
    induction (Z.to_nat (m - 1 - 1)) as [|k IH]; [cbn; lia |].
    cbn [days_before_month_aux].
    pose proof (days_in_month_bounds y (Z.of_nat (S k))). lia. }
  lia.
Qed.

Lemma toordinal_at_least_1 (d : datetime) : valid_date d -> 1 <= toordinal d.
Proof.
  intros (Hy & Hm & Hd). unfold toordinal.
  destruct (Z_le_gt_dec 2 (year d)) as [Hy2 | Hy2].
  - pose proof (days_before_year_from_2 (year d) Hy2).
    destruct (Z_le_gt_dec 2 (month d)) as [Hm2 | Hm2].
    + pose proof (days_before_month_from_2 (year d) (month d) Hm2). lia.
    + replace (month d) with 1 by lia. rewrite days_before_month_1. lia.
  - replace (year d) with 1 by lia. change (days_before_year 1) with 0.
    destruct (Z_le_gt_dec 2 (month d)) as [Hm2 | Hm2].
    + pose proof (days_before_month_from_2 1 (month d) Hm2). lia.
    + replace (month d) with 1 by lia. rewrite days_before_month_1. lia.
Qed.

(** Only 0001-01-01 has no day before it. *)
Lemma yesterday_of_first_day (d : datetime) :
  valid_date d -> toordinal d <= 1 -> yesterday d = Raise OverflowError.
Proof.
  intros (Hy & Hm & Hd) Hord. unfold toordinal in Hord. unfold yesterday.
  assert (Hy1 : year d = 1).
  { destruct (Z_le_gt_dec 2 (year d)) as [Hy2 | Hy2]; [| lia].
    pose proof (days_before_year_from_2 (year d) Hy2).
    destruct (Z_le_gt_dec 2 (month d)) as [Hm2 | Hm2].
    - pose proof (days_before_month_from_2 (year d) (month d) Hm2). lia.
    - replace (month d) with 1 in Hord by lia.
      rewrite days_before_month_1 in Hord. lia. }
  rewrite Hy1 in *. change (days_before_year 1) with 0 in Hord.
  assert (Hm1 : month d = 1).
  { destruct (Z_le_gt_dec 2 (month d)) as [Hm2 | Hm2]; [| lia].
    pose proof (days_before_month_from_2 1 (month d) Hm2). lia. }
  rewrite Hm1 in *. rewrite days_before_month_1 in Hord.
  replace (day d) with 1 by lia. reflexivity.
Qed.

Lemma sub_days_overflow (n : nat) : forall d : datetime,
  valid_date d -> toordinal d <= Z.of_nat n ->
  sub_days d n = Raise OverflowError.
Proof.
  induction n as [|n IH]; intros d Hv Hn.
  - pose proof (toordinal_at_least_1 d Hv). lia.
  - cbn [sub_days].
    destruct (Z_le_gt_dec (toordinal d) 1) as [H1 | H1].
    + rewrite (yesterday_of_first_day d Hv H1). reflexivity.
    + destruct (yesterday_ordinal d Hv ltac:(lia)) as (d' & Hy & Hv' & Ho).
      rewrite Hy. cbn [result_bind]. apply IH; [exact Hv' | lia].
Qed.

(** X7: when the clock reads one of the first sixty days of the calendar
    the assembler prints the line of an [OverflowError] and returns the
    five [None] without calling the fetch. *)
Theorem early_clock_no_data (download : string -> Py DataFrame)
    (now : datetime) (symbol : string) (out : stdout) :
  valid_date now -> toordinal now <= 60 ->
  load_chart_data download now symbol out =
  (out ++ [error_line OverflowError], Ok no_data).
Proof.
  intros Hv Hord.
  unfold load_chart_data, try_except, bind, lift.
  rewrite (sub_days_overflow 60 now Hv Hord). reflexivity.
Qed.

Lemma early_clock_no_data_witness :
  load_chart_data (fetch_returns sample_frame) (mkDate 1 3 1) "TCS" [] =
  ([error_line OverflowError], Ok no_data).
Proof.
  apply (early_clock_no_data (fetch_returns sample_frame) (mkDate 1 3 1)
           "TCS" []).
  - unfold valid_date. vm_compute. intuition discriminate.
  - vm_compute. discriminate.
Defined.

(** ** What the assembler prints *)

Lemma run_result_inv {A : Type} (o o' : stdout) (a b : A) :
  (o, Ok a) = (o', Ok b) -> o = o' /\ a = b.
Proof. intros H. injection H. auto. Qed.

(** X8: the assembler prints at most one line, after the fetch has
    printed what it prints, and only when it returns the five [None];
    when it returns chart data it has printed nothing. *)
Theorem assembler_prints_only_on_failure (download : string -> Py DataFrame)
    (now : datetime) (symbol : string) (out out1 out' : stdout)
    (r : result DataFrame) (b : Bundle) :
  clock_ok now ->
  download (symbol ++ ".NS")%string out = (out1, r) ->
  load_chart_data download now symbol out = (out', Ok b) ->
  (out' = out1 \/ exists e, out' = out1 ++ [error_line e] /\ b = no_data) /\
  (chart_data_of b <> None -> out' = out1).
Proof.
  intros Hclock Hd Hl.
  destruct (clock_sub_days_60 now Hclock) as (d60 & H60).
  unfold load_chart_data, try_except, bind, lift, print, ret in Hl.
  rewrite H60, Hd in Hl.
  assert (Hfail : forall e,
            (out1 ++ [error_line e], @Ok Bundle no_data) = (out', Ok b) ->
            (out' = out1 \/
             exists e, out' = out1 ++ [error_line e] /\ b = no_data) /\
            (chart_data_of b <> None -> out' = out1)).
  { intros e H. apply run_result_inv in H. destruct H as [<- <-]. split.
    - right. exists e. split; reflexivity.
    - intros H. exfalso. apply H. reflexivity. }
  destruct r as [df | e]; [| exact (Hfail e Hl)].
  destruct df as [|row rest]; cbn [empty negb] in Hl.
  - apply run_result_inv in Hl. destruct Hl as [<- <-].
    split; [left; reflexivity | reflexivity].
  - destruct (prev_month_of now) as [pm | e]; [| exact (Hfail e Hl)].
    destruct (normalize (row :: rest)) as [[[[cd cp] v] dc] | e];
      [| exact (Hfail e Hl)].
    apply run_result_inv in Hl. destruct Hl as [<- _].
    split; [left; reflexivity | reflexivity].
Qed.

Lemma assembler_prints_only_on_failure_witness :
  ([error_line IndexError] = [] \/
   exists e, [error_line IndexError] = [] ++ [error_line e] /\
             no_data = no_data) /\
  (chart_data_of no_data <> None -> [error_line IndexError] = []).
Proof.
  exact (assembler_prints_only_on_failure
           (fetch_returns [sample_row (mkDate 2024 3 8) 15])
           sample_clock "TCS" [] [] [error_line IndexError]
           (Ok [sample_row (mkDate 2024 3 8) 15]) no_data sample_clock_ok
           eq_refl eq_refl).
Defined.

(** ** Percent change *)

Lemma percent_change_facts (current_price prev_price : Q) :
  (0 < prev_price)%Q ->
  let change := ((current_price - prev_price) / prev_price * 100)%Q in
  ((change == 0 <-> current_price == prev_price) /\
   (-100 < change <-> 0 < current_price) /\
   (change == -100 <-> current_price == 0))%Q.
Proof.
  intros Hpos. cbv zeta.
  assert (Hne : ~ (prev_price == 0)%Q) by lra.
  set (q := ((current_price - prev_price) / prev_price)%Q).
  assert (Hq : (q * prev_price == current_price - prev_price)%Q)
    by (unfold q; field; exact Hne).
  assert (Hs : ((q + 1) * prev_price == current_price)%Q) by lra.
  split; [| split].
  - split; intros H.
    + assert (H0 : (q == 0)%Q) by lra. rewrite H0 in Hq. lra.
    + assert (H0 : (q * prev_price == 0)%Q) by lra.
      apply Qmult_integral in H0. destruct H0 as [H0 | H0]; [lra | contradiction].
  - split; intros H.
    + assert (H0 : (0 < q + 1)%Q) by lra.
      rewrite <- Hs. apply Qmult_lt_0_compat; assumption.
    + assert (H0 : (0 < (q + 1) * prev_price)%Q) by lra.
      destruct (Qlt_le_dec 0 (q + 1)) as [H1 | H1]; [lra | exfalso].
      assert (H2 : (0 <= - (q + 1))%Q) by lra.
      pose proof (Qmult_le_0_compat _ _ H2 (Qlt_le_weak _ _ Hpos)). lra.
  - split; intros H.
    + assert (H0 : (q + 1 == 0)%Q) by lra. rewrite H0 in Hs. lra.
    + assert (H0 : ((q + 1) * prev_price == 0)%Q) by lra.
      apply Qmult_integral in H0. destruct H0 as [H0 | H0]; [lra | contradiction].
Qed.

(** X9: with a positive close on the bar before the last, the percent
    change of the returned bundle is a number that is zero exactly when
    the last close repeats it, is above -100 exactly when the last close
    is positive, and is -100 exactly when the last close is zero. *)
Theorem percent_change_zero_and_floor (download : string -> Py DataFrame)
    (now : datetime) (symbol : string) (out out1 : stdout) (df : DataFrame) :
  clock_ok now ->
  download (symbol ++ ".NS")%string out = (out1, Ok df) ->
  (2 <= List.length df)%nat ->
  exists before last_row b change,
    nth_error df (List.length df - 2) = Some before /\
    nth_error df (List.length df - 1) = Some last_row /\
    load_chart_data download now symbol out = (out1, Ok b) /\
    daily_change_of b = Some change /\
    ((0 < Close before)%Q ->
     exists q,
       change = Finite q /\
       ((q == 0 <-> Close last_row == Close before) /\
        (-100 < q <-> 0 < Close last_row) /\
        (q == -100 <-> Close last_row == 0))%Q).
Proof.
  intros Hclock Hd Hlen.
  destruct (load_two_bars download now symbol out out1 df Hclock Hd Hlen)
    as (before & last_row & pm & H2 & H1 & _ & Hl).
  eexists before, last_row, _, _.
  split; [exact H2 |]. split; [exact H1 |]. split; [exact Hl |].
  split; [reflexivity |].
  intros Hpos.
  assert (Hne : ~ (Close before == 0)%Q) by lra.
  eexists. split.
  - apply (proj1 (np_percent_change (Close last_row) (Close before)) Hne).
  - apply (percent_change_facts _ _ Hpos).
Qed.

Lemma percent_change_zero_and_floor_witness :
  exists b change q,
    load_chart_data (fetch_returns sample_frame) sample_clock "TCS" [] =
    ([], Ok b) /\
    daily_change_of b = Some change /\
    change = Finite q /\
    (-100 < q <-> 0 < 15)%Q.
Proof.
  destruct (percent_change_zero_and_floor (fetch_returns sample_frame)
              sample_clock "TCS" [] [] sample_frame sample_clock_ok eq_refl)
    as (before & last_row & b & change & H2 & H1 & Hl & Hc & Hfacts).
  - cbn [List.length sample_frame]. lia.
  - injection H2 as <-. injection H1 as <-.
    destruct Hfacts as (q & Hq & _ & Hfloor & _); [vm_compute; reflexivity |].
    exists b, change, q. auto.
Defined.

(** ** Time labels of the chart *)

Lemma strftime_Y_m_d_inj (d1 d2 : datetime) :
  valid_date d1 -> valid_date d2 ->
  strftime_Y_m_d d1 = strftime_Y_m_d d2 -> d1 = d2.
Proof.
  intros (Hy1 & Hm1 & Hd1) (Hy2 & Hm2 & Hd2) H.
  pose proof (days_in_month_bounds (year d1) (month d1)) as Hb1.
  pose proof (days_in_month_bounds (year d2) (month d2)) as Hb2.
  unfold strftime_Y_m_d, strftime_Y_m in H.
  assert (Hz : zfill4 (year d1) = zfill4 (year d2) /\
               zfill2 (month d1) = zfill2 (month d2) /\
               zfill2 (day d1) = zfill2 (day d2)).
  { unfold zfill4, zfill2 in *. cbn [String.append] in H.
    injection H as -> -> -> -> -> -> -> ->. repeat split; reflexivity. }
  destruct Hz as (Ey & Em & Ed).
  apply zfill4_inj in Ey; [| lia | lia].
  apply zfill2_inj in Em; [| lia | lia].
  apply zfill2_inj in Ed; [| lia | lia].
  destruct d1, d2; cbn [year month day] in *. subst. reflexivity.
Qed.

(** X10: the time label of a chart row names its date: two bars with
    dates of the calendar get the same label only if they have the same
    date, and every label has ten characters. *)
Theorem chart_time_label_names_date (r1 r2 : Row) :
  valid_date (Date r1) -> valid_date (Date r2) ->
  (time (chart_point r1) = time (chart_point r2) -> Date r1 = Date r2) /\
  String.length (time (chart_point r1)) = 10%nat.
Proof.
  intros H1 H2. split.
  - cbn [chart_point time]. apply strftime_Y_m_d_inj; assumption.
  - reflexivity.
Qed.

Lemma chart_time_label_names_date_witness :
  String.length
    (time (chart_point (sample_row (mkDate 2024 3 8) 15))) = 10%nat.
Proof.
  refine (proj2 (chart_time_label_names_date
                   (sample_row (mkDate 2024 3 8) 15)
                   (sample_row (mkDate 2024 3 7) 14) _ _));
    unfold valid_date; vm_compute; intuition discriminate.
Defined.

(** ** From the bundle to the chart *)

(** X11: for a stock whose fetch returns two bars or more, the chart slot
    holds a chart with the stock's name, the last close and volume, and a
    series with a row for every fetched bar; with a positive close on the
    bar before, the header shows the up arrow exactly when the last close
    is not below it. *)
Theorem header_arrow_follows_price (download : string -> Py DataFrame)
    (now : datetime) (stock : string * string) (out out1 : stdout)
    (df : DataFrame) :
  clock_ok now ->
  download (fst stock ++ ".NS")%string out = (out1, Ok df) ->
  (2 <= List.length df)%nat ->
  exists before last_row ch,
    nth_error df (List.length df - 2) = Some before /\
    nth_error df (List.length df - 1) = Some last_row /\
    show_chart download now stock out = (out1, Ok (Some ch)) /\
    chart_name ch = snd stock /\
    chart_price ch = Close last_row /\
    chart_volume ch = Volume last_row /\
    is_chart_series df (chart_series ch) /\
    ((0 < Close before)%Q ->
     (change_up ch = true <-> (Close before <= Close last_row)%Q)).
Proof.
  intros Hclock Hd Hlen.
  destruct (load_two_bars download now (fst stock) out out1 df Hclock Hd Hlen)
    as (before & last_row & pm & H2 & H1 & _ & Hl).
  eexists before, last_row, _.
  split; [exact H2 |]. split; [exact H1 |].
  split; [unfold show_chart, bind, lift; rewrite Hl; reflexivity |].
  cbn [chart_name chart_price chart_volume chart_series change_up].
  repeat (split; [reflexivity |]).
  split; [apply make_chart_data_series |].
  intros Hpos.
  assert (Hne : ~ (Close before == 0)%Q) by lra.
  rewrite (proj1 (np_percent_change (Close last_row) (Close before)) Hne).
  cbn [np_ge]. rewrite Qle_bool_iff.
  apply percent_change_sign. exact Hpos.
Qed.

Lemma header_arrow_follows_price_witness :
  exists ch,
    show_chart (fetch_returns sample_frame) sample_clock ("TCS", "Tata")%string
      [] = ([], Ok (Some ch)) /\
    is_chart_series sample_frame (chart_series ch) /\
    (change_up ch = true <-> (14 <= 15)%Q).
Proof.
  destruct (header_arrow_follows_price (fetch_returns sample_frame)
              sample_clock ("TCS", "Tata")%string [] [] sample_frame
              sample_clock_ok eq_refl)
    as (before & last_row & ch & H2 & H1 & Hs & _ & _ & _ & Hser & Harrow).
  - cbn [List.length sample_frame]. lia.
  - injection H2 as <-. injection H1 as <-.
    exists ch. split; [exact Hs |]. split; [exact Hser |].
    apply Harrow. vm_compute. reflexivity.
Defined.

(** X12: drawing never fails on what the assembler returns: whatever the
    fetch does, a slot ends without an exception, it is skipped exactly
    when the assembler returned the five [None], and a chart carries
    either no horizontal line or seven. *)
Theorem show_chart_never_raises (download : string -> Py DataFrame)
    (now : datetime) (stock : string * string) (out : stdout) :
  exists out' b c,
    load_chart_data download now (fst stock) out = (out', Ok b) /\
    show_chart download now stock out = (out', Ok c) /\
    (c = None <-> b = no_data) /\
    (forall ch, c = Some ch ->
       chart_data_of b = Some (chart_series ch) /\
       (horizontal_lines ch = [] \/
        List.length (horizontal_lines ch) = 7%nat)).
Proof.
  destruct (load_chart_data_returns download now (fst stock) out)
    as (out' & b & Hl & Hb).
  destruct Hb as [-> | (cd & cp & v & dc & pv & ->)].
  - exists out', no_data, None. split; [exact Hl |].
    split; [unfold show_chart, bind, lift; rewrite Hl; reflexivity |].
    split; [tauto | discriminate].
  - eexists out', _, _. split; [exact Hl |].
    split; [unfold show_chart, bind, lift; rewrite Hl; reflexivity |].
    split; [split; discriminate |].
    intros ch [= <-]. cbn [chart_data_of chart_series horizontal_lines].
    split; [reflexivity |].
    destruct pv; [right; reflexivity | left; reflexivity].
Qed.

(** ** Pagination *)

Lemma total_pages_div (n : nat) : total_pages n = (Z.of_nat n + 11) / 12.
Proof.
  unfold total_pages, math_ceil, Qceiling, Qfloor, CHARTS_PER_PAGE.
  unfold Qdiv, Qinv, Qmult, Qopp, inject_Z. cbn [Qnum Qden].
  change (Z.pos (1 * 12)) with 12. rewrite Z.mul_1_r.
  Z.div_mod_to_equations. lia.
Qed.

Lemma total_pages_bounds (n : nat) :
  12 * (total_pages n - 1) < Z.of_nat n <= 12 * total_pages n.
Proof.
  rewrite total_pages_div. Z.div_mod_to_equations. lia.
Qed.

(** X13: [total_pages] is the least number of pages of twelve that hold
    all the stocks: twelve times it is at least [n], no smaller number
    of pages is enough, and it is zero exactly for an empty list. *)
Theorem total_pages_least (n : nat) :
  Z.of_nat n <= 12 * total_pages n /\
  (forall k : Z, Z.of_nat n <= 12 * k -> total_pages n <= k) /\
  (total_pages n = 0 <-> n = 0%nat).
Proof.
  rewrite total_pages_div.
  split; [Z.div_mod_to_equations; lia |].
  split; [intros k Hk | split; intros H]; Z.div_mod_to_equations; lia.
Qed.

Lemma total_pages_least_witness : total_pages 30 <= 3.
Proof.
  refine (proj1 (proj2 (total_pages_least 30)) 3 _). vm_compute. discriminate.
Defined.

(** X14: every page from 1 to [total_pages] shows at least one stock and
    at most twelve, inside the list; every page but the last shows
    twelve, and the last page ends at the end of the list. *)
Theorem page_bounds (n : nat) (page : Z) :
  1 <= page <= total_pages n ->
  0 <= start_idx page < end_idx page n /\
  end_idx page n <= Z.of_nat n /\
  end_idx page n - start_idx page <= 12 /\
  (page < total_pages n -> end_idx page n - start_idx page = 12) /\
  (page = total_pages n -> end_idx page n = Z.of_nat n).
Proof.
  intros Hp. pose proof (total_pages_bounds n) as Ht.
  unfold end_idx, start_idx, CHARTS_PER_PAGE. lia.
Qed.

Lemma page_bounds_witness :
  0 <= start_idx 3 < end_idx 3 30 /\
  end_idx 3 30 <= 30 /\
  end_idx 3 30 - start_idx 3 <= 12 /\
  (3 < total_pages 30 -> end_idx 3 30 - start_idx 3 = 12) /\
  (3 = total_pages 30 -> end_idx 3 30 = 30).
Proof.
  apply (page_bounds 30 3). vm_compute. split; discriminate.
Defined.

Lemma firstn_add_skipn {A : Type} (a b : nat) : forall l : list A,
  firstn (a + b) l = firstn a l ++ firstn b (skipn a l).
Proof.
  induction a as [|a IH]; intros l; [reflexivity |].
  destruct l as [|x l]; cbn [Nat.add firstn skipn app].
  - rewrite firstn_nil. reflexivity.
  - rewrite IH. reflexivity.
Qed.

Lemma pages_concat {A : Type} (l : list A) (k : nat) :
  List.concat (map (fun i => firstn 12 (skipn (12 * i) l)) (seq 0 k)) =
  firstn (12 * k) l.
Proof.
  induction k as [|k IH]; [reflexivity |].
  rewrite seq_S, map_app, concat_app, IH. cbn [Nat.add map List.concat].
  rewrite app_nil_r.
  replace (12 * S k)%nat with (12 * k + 12)%nat by lia.
  symmetry. apply firstn_add_skipn.
Qed.

Lemma page_slice_nat {A : Type} (l : list A) (i : nat) :
  page_slice (Z.of_nat (S i)) l = firstn 12 (skipn (12 * i) l).
Proof.
  unfold page_slice, start_idx, CHARTS_PER_PAGE.
  replace (Z.to_nat ((Z.of_nat (S i) - 1) * 12)) with (12 * i)%nat by lia.
  reflexivity.
Qed.

Lemma py_slice_page {A : Type} (l : list A) (i : nat) :
  (12 * i < List.length l)%nat ->
  py_slice l (start_idx (Z.of_nat (S i)))
    (end_idx (Z.of_nat (S i)) (List.length l)) =
  firstn 12 (skipn (12 * i) l).
Proof.
  intros Hi. unfold py_slice, end_idx, start_idx, CHARTS_PER_PAGE.
  replace (Z.to_nat ((Z.of_nat (S i) - 1) * 12)) with (12 * i)%nat by lia.
  destruct (Nat.le_gt_cases (12 * i + 12) (List.length l)) as [Hfull | Hpart].
  - replace (Z.to_nat (Z.min ((Z.of_nat (S i) - 1) * 12 + 12)
                         (Z.of_nat (List.length l))
                       - (Z.of_nat (S i) - 1) * 12)) with 12%nat by lia.
    reflexivity.
  - replace (Z.to_nat (Z.min ((Z.of_nat (S i) - 1) * 12 + 12)
                         (Z.of_nat (List.length l))
                       - (Z.of_nat (S i) - 1) * 12))
      with (List.length l - 12 * i)%nat by lia.
    rewrite !firstn_all2; [reflexivity | |]; rewrite length_skipn; lia.
Qed.

(** X15: the pages tile the list: the slices of the list from
    [start_idx] to [end_idx] of pages 1, 2, ..., [total_pages], one after
    the other, are the whole list, each stock once and in order. *)
Theorem pages_tile_the_list {A : Type} (l : list A) :
  List.concat
    (map (fun i =>
            py_slice l (start_idx (Z.of_nat (S i)))
              (end_idx (Z.of_nat (S i)) (List.length l)))
         (seq 0 (Z.to_nat (total_pages (List.length l))))) = l.
Proof.
  pose proof (total_pages_bounds (List.length l)) as Ht.
  rewrite (map_ext_in _ (fun i => firstn 12 (skipn (12 * i) l))).
  - rewrite pages_concat. apply firstn_all2. lia.
  - intros i Hi. apply in_seq in Hi. apply py_slice_page. lia.
Qed.

(** ** The grid loop and its indices *)

Lemma iloc_nonneg {A : Type} (l : list A) (i : nat) (x : A) :
  nth_error l i = Some x -> iloc l (Z.of_nat i) = Ok x.
Proof.
  intros H. unfold iloc.
  assert (Hi : (i < List.length l)%nat)
    by (apply nth_error_Some; rewrite H; discriminate).
  replace (Z.of_nat i <? 0) with false by (symmetry; apply Z.ltb_ge; lia).
  replace ((0 <=? Z.of_nat i) && (Z.of_nat i <? Z.of_nat (List.length l)))
    with true
    by (symmetry; apply andb_true_intro; split;
        [apply Z.leb_le | apply Z.ltb_lt]; lia).
  rewrite Nat2Z.id, H. reflexivity.
Qed.

Lemma firstn_skipn_cons {A : Type} (m : nat) (x : A) : forall (s : nat) (l : list A),
  nth_error l s = Some x ->
  firstn (S m) (skipn s l) = x :: firstn m (skipn (S s) l).
Proof.
  induction s as [|s IH]; intros l H; destruct l as [|y l]; try discriminate.
  - cbn [nth_error] in H. injection H as ->. reflexivity.
  - cbn [nth_error] in H. cbn [skipn]. apply IH. exact H.
Qed.

Lemma py_range_nil (start stop : Z) : stop <= start -> py_range start stop 2 = [].
Proof.
  intros H. unfold py_range.
  replace (Z.to_nat ((stop - start + 2 - 1) / 2)) with 0%nat;
    [reflexivity |].
  assert ((stop - start + 2 - 1) / 2 <= 0)
    by (Z.div_mod_to_equations; lia).
  lia.
Qed.

Lemma py_range_cons (start stop : Z) :
  start < stop ->
  py_range start stop 2 = start :: py_range (start + 2) stop 2.
Proof.
  intros H. unfold py_range.
  replace (Z.to_nat ((stop - start + 2 - 1) / 2))
    with (S (Z.to_nat ((stop - (start + 2) + 2 - 1) / 2))).
  - reflexivity.
  - assert ((stop - start + 2 - 1) / 2 = (stop - (start + 2) + 2 - 1) / 2 + 1)
      by (Z.div_mod_to_equations; lia).
    assert (0 <= (stop - (start + 2) + 2 - 1) / 2)
      by (Z.div_mod_to_equations; lia).
    lia.
Qed.

(** The loop over the indices from [s] to [s + m] shows the [m] stocks
    that start at position [s], as the loop over the list does. *)
Lemma display_rows_slice (download : string -> Py DataFrame) (now : datetime)
    (stocks_df : list (string * string)) (m : nat) :
  forall (s : nat), (s + m <= List.length stocks_df)%nat ->
  forall out,
    display_rows download now stocks_df (Z.of_nat (s + m))
      (py_range (Z.of_nat s) (Z.of_nat (s + m)) 2) out =
    page_loop download now (firstn m (skipn s stocks_df)) out.
Proof.
  enough (H : (forall (s : nat), (s + m <= List.length stocks_df)%nat ->
               forall out,
                 display_rows download now stocks_df (Z.of_nat (s + m))
                   (py_range (Z.of_nat s) (Z.of_nat (s + m)) 2) out =
                 page_loop download now (firstn m (skipn s stocks_df)) out) /\
              (forall (s : nat), (s + S m <= List.length stocks_df)%nat ->
               forall out,
                 display_rows download now stocks_df (Z.of_nat (s + S m))
                   (py_range (Z.of_nat s) (Z.of_nat (s + S m)) 2) out =
                 page_loop download now (firstn (S m) (skipn s stocks_df)) out))
    by apply H.
  induction m as [|m [IH0 IH1]].
  - split; intros s Hs out.
    + rewrite py_range_nil by lia. reflexivity.
    + destruct (nth_error stocks_df s) as [x|] eqn:Ex;
        [| apply nth_error_None in Ex; lia].
      rewrite py_range_cons by lia.
      rewrite (py_range_nil (Z.of_nat s + 2)) by lia.
      rewrite (firstn_skipn_cons 0 x s stocks_df Ex). cbn [firstn].
      cbn [display_rows page_loop]. unfold bind, lift, ret.
      rewrite (iloc_nonneg stocks_df s x Ex).
      replace (Z.of_nat s + 1 <? Z.of_nat (s + 1)) with false
        by (symmetry; apply Z.ltb_ge; lia).
      destruct (show_chart download now x out) as [o1 [c1 | e]]; reflexivity.
  - split; [exact IH1 |]. intros s Hs out.
    destruct (nth_error stocks_df s) as [x1|] eqn:E1;
      [| apply nth_error_None in E1; lia].
    destruct (nth_error stocks_df (S s)) as [x2|] eqn:E2;
      [| apply nth_error_None in E2; lia].
    rewrite py_range_cons by lia.
    rewrite (firstn_skipn_cons (S m) x1 s stocks_df E1).
    rewrite (firstn_skipn_cons m x2 (S s) stocks_df E2).
    replace (Z.of_nat s + 2) with (Z.of_nat (S (S s))) by lia.
    replace (s + S (S m))%nat with (S (S s) + m)%nat by lia.
    cbn [display_rows page_loop]. unfold bind, lift, ret.
    rewrite (iloc_nonneg stocks_df s x1 E1).
    destruct (show_chart download now x1 out) as [o1 [c1 | e]];
      [| reflexivity].
    replace (Z.of_nat s + 1 <? Z.of_nat (S (S s) + m)) with true
      by (symmetry; apply Z.ltb_lt; lia).
    replace (Z.of_nat s + 1) with (Z.of_nat (S s)) by lia.
    rewrite (iloc_nonneg stocks_df (S s) x2 E2).
    destruct (show_chart download now x2 o1) as [o2 [c2 | e]];
      [| reflexivity].
    rewrite (IH0 (S (S s)) ltac:(lia) o2).
    destruct (page_loop download now
                (firstn m (skipn (S (S s)) stocks_df)) o2) as [o3 [cs | e]];
      reflexivity.
Qed.

(** X16: for every page number from 1 on, the grid loop reads only
    positions inside the list, so it raises no [IndexError], and it shows
    the stocks of that page's slice of the list, two to a row and in
    order; a page number past the last page shows nothing. *)
Theorem display_charts_shows_page_slice (download : string -> Py DataFrame)
    (now : datetime) (stocks_df : list (string * string)) (page : Z)
    (out : stdout) :
  1 <= page ->
  display_charts download now stocks_df page out =
  page_loop download now (page_slice page stocks_df) out /\
  (total_pages (List.length stocks_df) < page ->
   display_charts download now stocks_df page out = (out, Ok [])).
Proof.
  intros Hp.
  assert (Hmain : display_charts download now stocks_df page out =
                  page_loop download now (page_slice page stocks_df) out).
  { unfold display_charts, page_slice, end_idx. cbv zeta.
    set (n := List.length stocks_df).
    assert (Hs0 : 0 <= start_idx page)
      by (unfold start_idx, CHARTS_PER_PAGE; lia).
    set (s := Z.to_nat (start_idx page)).
    assert (Es : start_idx page = Z.of_nat s) by (unfold s; lia).
    rewrite Es. unfold CHARTS_PER_PAGE.
    destruct (Nat.le_gt_cases n s) as [Hge | Hlt].
    - rewrite py_range_nil by lia.
      rewrite skipn_all2 by (fold n; lia). reflexivity.
    - destruct (Nat.le_gt_cases (s + 12) n) as [Hfull | Hpart].
      + replace (Z.min (Z.of_nat s + 12) (Z.of_nat n))
          with (Z.of_nat (s + 12)) by lia.
        apply display_rows_slice. fold n. exact Hfull.
      + replace (Z.min (Z.of_nat s + 12) (Z.of_nat n))
          with (Z.of_nat (s + (n - s))) by lia.
        rewrite (display_rows_slice download now stocks_df (n - s) s)
          by (fold n; lia).
        rewrite !firstn_all2; [reflexivity | |];
          rewrite length_skipn; fold n; lia. }
  split; [exact Hmain |].
  intros Hpast. rewrite Hmain. unfold page_slice.
  pose proof (total_pages_bounds (List.length stocks_df)) as Ht.
  rewrite skipn_all2; [reflexivity |].
  unfold start_idx, CHARTS_PER_PAGE. lia.
Qed.

Lemma display_charts_shows_page_slice_witness :
  display_charts fetch_fails_for_B sample_clock
    [("A", "Alpha"); ("B", "Beta"); ("C", "Gamma")]%string 1 [] =
  page_loop fetch_fails_for_B sample_clock
    [("A", "Alpha"); ("B", "Beta"); ("C", "Gamma")]%string [].
Proof.
  refine (proj1 (display_charts_shows_page_slice fetch_fails_for_B
                   sample_clock
                   [("A", "Alpha"); ("B", "Beta"); ("C", "Gamma")]%string
                   1 [] _)).
  lia.
Defined.

(** ** The page counter *)

Lemma table_eqb_eq (a b : option string) : table_eqb a b = true <-> a = b.
Proof.
  destruct a as [x|], b as [y|]; cbn [table_eqb];
    try (split; [discriminate | discriminate]); [| tauto].
  rewrite String.eqb_eq. split; [intros ->; reflexivity | intros [= ->]; reflexivity].
Qed.

Lemma run_script_page_from_1 (s : RawSession) (selected_table : option string)
    (n : nat) (clicked : option Button) :
  (forall p, raw_current_page s = Some p -> 1 <= p) ->
  1 <= current_page (run_script s selected_table n clicked).
Proof.
  intros Hs.
  assert (Hpre : 1 <= current_page (session_preamble s selected_table)).
  { unfold session_preamble. cbv zeta.
    destruct (negb (table_eqb _ selected_table)); cbn [current_page]; [lia |].
    destruct (raw_current_page s) as [p|]; [apply Hs; reflexivity | lia]. }
  unfold run_script. cbv zeta.
  destruct (truthy selected_table); [| exact Hpre].
  unfold pagination_controls.
  destruct clicked as [[|]|]; [| | exact Hpre].
  - destruct (Z.eqb_spec (current_page (session_preamble s selected_table)) 1);
      [exact Hpre | cbn [current_page]; lia].
  - destruct (current_page (session_preamble s selected_table)
              =? total_pages n); [exact Hpre | cbn [current_page]; lia].
Qed.

(** X17: starting from a session without state, after any sequence of
    table selections, searches and button clicks the page counter is at
    least 1. *)
Theorem page_counter_never_below_1
    (runs : list (option string * nat * option Button)) (p : Z) :
  raw_current_page (session_after runs (mkRawSession None None)) = Some p ->
  1 <= p.
Proof.
  enough (H : forall s,
            (forall q, raw_current_page s = Some q -> 1 <= q) ->
            forall q, raw_current_page (session_after runs s) = Some q ->
                      1 <= q).
  { apply H. cbn [raw_current_page]. discriminate. }
  induction runs as [|[[t n] c] rest IH]; intros s Hs q Hq.
  - apply Hs. exact Hq.
  - cbn [session_after] in Hq.
    apply (IH (stored (run_script s t n c))); [| exact Hq].
    intros q' Hq'. cbn [stored raw_current_page] in Hq'.
    injection Hq' as <-. apply run_script_page_from_1. exact Hs.
Qed.

Lemma page_counter_never_below_1_witness :
  raw_current_page
    (session_after
       [(Some "nifty50"%string, 30%nat, None);
        (Some "nifty50"%string, 30%nat, Some Next);
        (Some "nifty50"%string, 30%nat, Some Next);
        (Some "nifty50"%string, 30%nat, Some Previous)]
       (mkRawSession None None)) = Some 2 /\
  1 <= 2.
Proof.
  split; [reflexivity |].
  apply (page_counter_never_below_1
           [(Some "nifty50"%string, 30%nat, None);
            (Some "nifty50"%string, 30%nat, Some Next);
            (Some "nifty50"%string, 30%nat, Some Next);
            (Some "nifty50"%string, 30%nat, Some Previous)] 2).
  reflexivity.
Defined.

(** X18: while the table and the list stay the same and the page is
    between 1 and [total_pages], a click on Previous goes one page back
    but not below page 1, a click on Next one page on but not past the
    last page, and a run without a click keeps the page. *)
Theorem buttons_stay_in_range (t : string) (n : nat) (p : Z)
    (clicked : option Button) :
  t <> ""%string -> 1 <= p <= total_pages n ->
  let s' := run_script (mkRawSession (Some p) (Some (Some t))) (Some t) n
                       clicked in
  1 <= current_page s' <= total_pages n /\
  previous_table s' = Some t /\
  current_page s' =
    match clicked with
    | Some Previous => Z.max 1 (p - 1)
    | Some Next => Z.min (total_pages n) (p + 1)
    | None => p
    end.
Proof.
  intros Ht Hp. cbv zeta.
  unfold run_script, session_preamble. cbv zeta.
  cbn [raw_current_page raw_previous_table table_eqb truthy].
  rewrite String.eqb_refl. cbn [negb].
  replace (String.eqb t "") with false
    by (symmetry; apply String.eqb_neq; exact Ht).
  cbn [negb]. unfold pagination_controls. cbn [current_page previous_table].
  destruct clicked as [[|]|]; cbn [current_page previous_table].
  - destruct (Z.eqb_spec p 1); cbn [current_page previous_table];
      repeat split; try reflexivity; lia.
  - destruct (Z.eqb_spec p (total_pages n));
      cbn [current_page previous_table];
      repeat split; try reflexivity; lia.
  - repeat split; try reflexivity; lia.
Qed.

Lemma buttons_stay_in_range_witness :
  current_page (run_script (mkRawSession (Some 3) (Some (Some "nifty50"%string)))
                  (Some "nifty50"%string) 30 (Some Next)) = 3.
Proof.
  refine (let H := buttons_stay_in_range "nifty50" 30 3 (Some Next) _ _ in
          proj2 (proj2 H)).
  - discriminate.
  - vm_compute. split; discriminate.
Defined.

(** X19: the page counter is not brought back when the list gets shorter:
    with the page past the last page (after a search that leaves fewer
    stocks, or none), a run keeps the page, the Next button is not
    disabled and a click on it moves the page further on. *)
Theorem page_past_the_end_is_kept (t : string) (n : nat) (p : Z) :
  t <> ""%string -> total_pages n < p ->
  current_page (run_script (mkRawSession (Some p) (Some (Some t))) (Some t) n
                  None) = p /\
  current_page (run_script (mkRawSession (Some p) (Some (Some t))) (Some t) n
                  (Some Next)) = p + 1.
Proof.
  intros Ht Hp.
  unfold run_script, session_preamble. cbv zeta.
  cbn [raw_current_page raw_previous_table table_eqb truthy].
  rewrite String.eqb_refl. cbn [negb].
  replace (String.eqb t "") with false
    by (symmetry; apply String.eqb_neq; exact Ht).
  cbn [negb]. unfold pagination_controls. cbn [current_page previous_table].
  split; [reflexivity |].
  destruct (Z.eqb_spec p (total_pages n)); [lia | reflexivity].
Qed.

Lemma page_past_the_end_is_kept_witness :
  current_page (run_script (mkRawSession (Some 1) (Some (Some "nifty50"%string)))
                  (Some "nifty50"%string) 0 (Some Next)) = 1 + 1.
Proof.
  refine (proj2 (page_past_the_end_is_kept "nifty50" 0 1 _ _)).
  - discriminate.
  - vm_compute. reflexivity.
Defined.

(** X20: selecting another table puts the page back to 1 and records the
    table; and the run that follows a click ([st.rerun()]) finds the
    state the click left and changes nothing. *)
Theorem table_switch_resets_page (s : RawSession)
    (selected_table : option string) (n : nat) (clicked : option Button) :
  (forall previous,
     raw_previous_table s = Some previous -> previous <> selected_table ->
     run_script s selected_table n None = mkSession 1 selected_table) /\
  run_script (stored (run_script s selected_table n clicked))
             selected_table n None =
  run_script s selected_table n clicked.
Proof.
  split.
  - intros previous Hprev Hne.
    unfold run_script, session_preamble. cbv zeta. rewrite Hprev.
    replace (table_eqb previous selected_table) with false.
    + cbn [negb]. destruct (truthy selected_table); reflexivity.
    + symmetry. apply not_true_is_false. intros E.
      apply table_eqb_eq in E. contradiction.
  - assert (Hpre : previous_table (session_preamble s selected_table)
                   = selected_table).
    { unfold session_preamble. cbv zeta.
      destruct (table_eqb _ selected_table) eqn:E; cbn [negb previous_table];
        [apply table_eqb_eq; exact E | reflexivity]. }
    assert (Hrun : previous_table (run_script s selected_table n clicked)
                   = selected_table).
    { unfold run_script. cbv zeta.
      destruct (truthy selected_table); [| exact Hpre].
      unfold pagination_controls.
      destruct clicked as [[|]|]; [| | exact Hpre].
      - destruct (_ =? 1); [exact Hpre | cbn [previous_table]; exact Hpre].
      - destruct (_ =? total_pages n);
          [exact Hpre | cbn [previous_table]; exact Hpre]. }
    set (s' := run_script s selected_table n clicked) in *.
    clearbody s'. destruct s' as [pg pt].
    cbn [previous_table] in Hrun. subst pt.
    unfold run_script, session_preamble. cbv zeta.
    cbn [stored raw_current_page raw_previous_table current_page
         previous_table].
    replace (table_eqb selected_table selected_table) with true
      by (symmetry; apply table_eqb_eq; reflexivity).
    cbn [negb pagination_controls].
    destruct (truthy selected_table); reflexivity.
Qed.

Lemma table_switch_resets_page_witness :
  run_script (mkRawSession (Some 3) (Some (Some "nifty50"%string)))
    (Some "midcap"%string) 40 None =
  mkSession 1 (Some "midcap"%string).
Proof.
  refine (proj1 (table_switch_resets_page
                   (mkRawSession (Some 3) (Some (Some "nifty50"%string)))
                   (Some "midcap"%string) 40 None)
            (Some "nifty50"%string) eq_refl _).
  discriminate.
Defined.
